(** * Dairy cold-room temperature control: model and verified properties

    A shallow embedding of the storage layer, the sensor simulator, the
    temperature recommendation and the alert evaluation of
    [dairy_temperature_app.py].

    Modelling conventions
    - SQLite [REAL] columns and Python floats hold rationals ([Q]), of which
      the binary64 numbers are a part; comparisons are the comparisons of [Q]
      (for instance [6#2] and [3] compare equal).  The float operations of
      the sensor simulator round their result as binary64 does
      ([binary64_round]: the nearest binary64 number, ties to even); overflow
      to infinity and NaN are not modelled.  The arithmetic of the
      recommendation, of the alert tests and of the weather feed is that of
      [Q].
    - A table is the list of its rows in insertion order.  [AUTOINCREMENT]
      keys are drawn from a per-table counter, as SQLite keeps them in
      [sqlite_sequence].
    - Every function of the program opens its own connection and commits before
      closing it, so the database is threaded through explicitly: a function
      takes the committed state and returns the new committed state.
    - The two sources of nondeterminism, [random.random()] and the clocks, are
      inputs of the functions that consult them.
    - The tables [users] and [audit_log] are kept in a record of their own,
      [accounts]: [init_db] alone writes to them and to the other tables.
      The table [weather_data] is created and never used; it is left out.
    - Of the pages, the computations are modelled (what is recommended, what a
      button or a form writes); widgets and rendering are not. *)

From Stdlib Require Import ZArith QArith Qabs Qminmax Qround Qpower Qreduction.
From Stdlib Require Import Lqa Lia List String Bool.
From Stdlib Require PrimFloat FloatOps SpecFloat Uint63.
Import ListNotations.

Open Scope Q_scope.

(** ** Python builtins on numbers *)

Module Py.

(** [x < y] on numbers. *)
Definition lt (x y : Q) : bool :=
  match x ?= y with Lt => true | _ => false end.

(** [x > y] on numbers. *)
Definition gt (x y : Q) : bool := lt y x.

(** [max(a, b)]: the first argument is kept unless the second is strictly
    greater. *)
Definition max (a b : Q) : Q := if gt b a then b else a.

(** [min(a, b)]: the first argument is kept unless the second is strictly
    smaller. *)
Definition min (a b : Q) : Q := if lt b a then b else a.

(** [abs(x)]. *)
Definition abs (x : Q) : Q := Qabs x.

(** [random.uniform(a, b)], which the standard library computes as
    [a + (b - a) * random()]; [u] is the value of [random()], a number of
    the half-open interval from 0 to 1. *)
Definition uniform (a b : Q) (u : Q) : Q := a + (b - a) * u.

(** The contract of [random.random()]. *)
Definition is_random (u : Q) : Prop := 0 <= u /\ u < 1.

End Py.

(** ** Binary64 arithmetic *)

(** A float operation returns the exact result rounded to the nearest
    binary64 number, ties going to the even significand.  The binary64
    numbers are the multiples of [2^q] with a significand below [2^53], [q]
    being at least -1074; the largest exponent is not modelled. *)

Definition pow2 (e : Z) : Q := 2 ^ e.

(** The exponent [e] with [2^e <= x < 2^(e+1)], for [x] positive. *)
Definition floor_log2 (x : Q) : Z :=
  let e0 := (Z.log2 (Qnum x) - Z.log2 (QDen x))%Z in
  if Qle_bool (pow2 e0) x then e0 else (e0 - 1)%Z.

(** The nearest integer, the even one of two that are equally near. *)
Definition round_half_even (x : Q) : Z :=
  let f := Qfloor x in
  match Qcompare (x - inject_Z f) (1 # 2) with
  | Lt => f
  | Gt => (f + 1)%Z
  | Eq => if Z.even f then f else (f + 1)%Z
  end.

(** The exponent of the last place of the significand of [x]: 52 places below
    the leading one, and never below that of the subnormal numbers. *)
Definition quantum (x : Q) : Z := Z.max (floor_log2 x - 52) (-1074).

(** The nearest multiple of [2^q]. *)
Definition round_on_grid (q : Z) (x : Q) : Q :=
  inject_Z (round_half_even (x / pow2 q)) * pow2 q.

Definition round_magnitude (x : Q) : Q := round_on_grid (quantum x) x.

(** The rounding of binary64, with the sign apart as in the format. *)
Definition binary64_round (x : Q) : Q :=
  match Qnum x with
  | Z0 => 0
  | Zpos _ => Qred (round_magnitude x)
  | Zneg _ => Qred (- round_magnitude (- x))
  end.

(** [v] is a multiple of [2^q]. *)
Definition on_grid (q : Z) (v : Q) : Prop :=
  exists k : Z, v == inject_Z k * pow2 q.

(** [v] is a binary64 number. *)
Definition representable (v : Q) : Prop :=
  v == 0
  \/ (0 < v /\ on_grid (quantum v) v)
  \/ (v < 0 /\ on_grid (quantum (- v)) (- v)).

Module Float.

(** The float that a decimal literal denotes. *)
Definition lit (x : Q) : Q := binary64_round x.

(** [x + y], [x - y] and [x * y] on floats. *)
Definition add (x y : Q) : Q := binary64_round (x + y).
Definition sub (x y : Q) : Q := binary64_round (x - y).
Definition mul (x y : Q) : Q := binary64_round (x * y).

(** [random.uniform(a, b)] on floats: [a + (b - a) * self.random()], each
    operation a float operation; [u] is the value of [random()]. *)
Definition uniform (a b : Q) (u : Q) : Q := add a (mul (sub b a) u).

(** [random.uniform(a, b)] on integers: [b - a] is then the integer
    subtraction; the product with [random()] and the sum are float
    operations, the integers being converted as they are. *)
Definition uniform_int (a b : Z) (u : Q) : Q :=
  add (inject_Z a) (mul (inject_Z (b - a)) u).

End Float.

Module KernelFloat.

Import PrimFloat FloatOps SpecFloat.

#[local] Set Warnings "-inexact-float".

(** The rational that a finite binary64 number of the kernel stands for. *)
Definition to_Q (x : float) : option Q :=
  match Prim2SF x with
  | S754_zero _ => Some 0
  | S754_finite s m e =>
      let v := inject_Z (Z.pos m) * 2 ^ e in
      Some (Qred (if s then - v else v))
  | S754_infinity _ | S754_nan => None
  end.

(** [room[0] + random.uniform(-0.2, 0.2)] with [random()] equal to [u], in
    the binary64 arithmetic of the kernel. *)
Definition new_temp (current u : float) : float :=
  (current + (-0.2 + (0.2 - -0.2) * u))%float.

(** The reading of a room at 4.0 when [random()] returns 0. *)
Definition reading_at_seed : float := new_temp 4.0 0.0.

(** The float division of two integers, each below [2^53] in magnitude: the
    quotient rounded once. *)
Definition quotient (a : Z) (b : positive) : float :=
  let x := of_uint63 (Uint63.of_Z (Z.abs a)) in
  let y := of_uint63 (Uint63.of_Z (Z.pos b)) in
  if (a <? 0)%Z then (- (x / y))%float else (x / y)%float.

End KernelFloat.

(** ** Rows of the tables *)

Module Products.
(** [SELECT id, name, min_temp, max_temp, humidity, shelf_life FROM products]:
    the tuple positions 0 to 5 of a product row. *)
Record row : Type := mk {
  id : Z;
  name : string;
  min_temp : Q;
  max_temp : Q;
  humidity : Q;
  shelf_life : Z
}.
End Products.

(** ** Recommendation *)

(** [recommend_temperature(product, external_temp)].  [product] is a row of
    [products] or [None]. *)
Definition recommend_temperature (product : option Products.row) (external_temp : Q)
  : option Q :=
  match product with
  | None => None
  | Some product =>
      let p2 := Products.min_temp product in
      let p3 := Products.max_temp product in
      if Py.gt external_temp 30 then
        Some (Py.max p2 ((p2 + p3) / 2 - 1))
      else if Py.lt external_temp 10 then
        Some (Py.min p3 ((p2 + p3) / 2 + 1))
      else
        Some ((p2 + p3) / 2)
  end.

(** ** The remaining tables and the database *)

Module Rooms.
(** A row of [rooms].  [current_product_id] and [last_updated] may hold
    [NULL]; the seed rows leave both empty. *)
Record row : Type := mk {
  id : Z;
  name : string;
  current_temp : Q;
  target_temp : Q;
  humidity : Q;
  current_product_id : option Z;
  last_updated : option Z
}.

Definition set_target_temp (v : Q) (r : row) : row :=
  mk (id r) (name r) (current_temp r) v (humidity r)
     (current_product_id r) (last_updated r).

Definition set_current_product_id (v : Z) (r : row) : row :=
  mk (id r) (name r) (current_temp r) (target_temp r) (humidity r)
     (Some v) (last_updated r).

Definition set_reading (temp hum : Q) (now : Z) (r : row) : row :=
  mk (id r) (name r) temp (target_temp r) hum
     (current_product_id r) (Some now).
End Rooms.

Module SensorData.
(** A row of [sensor_data]. *)
Record row : Type := mk {
  id : Z;
  room_id : Z;
  temperature : Q;
  humidity : Q;
  timestamp : Z
}.
End SensorData.

(** The committed content of the database file. *)
Record database : Type := mkDB {
  products : list Products.row;
  rooms : list Rooms.row;
  sensor_data : list SensorData.row;
  seq_products : Z;
  seq_rooms : Z;
  seq_sensor_data : Z
}.

Definition empty_db : database := mkDB [] [] [] 0 0 0.

(** The outcome of a statement that may violate a constraint. *)
Inductive sql_result (A : Type) : Type :=
| Ok (a : A)
| IntegrityError.
Arguments Ok {A} a.
Arguments IntegrityError {A}.

Definition bind {A B : Type} (m : sql_result A) (k : A -> sql_result B)
  : sql_result B :=
  match m with
  | Ok a => k a
  | IntegrityError => IntegrityError
  end.

(** ** SQL statements *)

Section Statements.

Open Scope Z_scope.

(** [... FROM products WHERE name = ?], first row. *)
Definition select_product_by_name (nm : string) (db : database)
  : option Products.row :=
  find (fun p => String.eqb (Products.name p) nm) (products db).

(** [... FROM products WHERE id = ?], first row: the right-hand side of the
    [LEFT JOIN products p ON r.current_product_id = p.id]. *)
Definition select_product_by_id (pid : Z) (db : database)
  : option Products.row :=
  find (fun p => Products.id p =? pid) (products db).

(** [... FROM rooms WHERE id = ?], first row. *)
Definition select_room_by_id (rid : Z) (db : database) : option Rooms.row :=
  find (fun r => Rooms.id r =? rid) (rooms db).

(** [INSERT INTO products (name, min_temp, max_temp, humidity, shelf_life)
    VALUES (?, ?, ?, ?, ?)].  The column [name] is [UNIQUE]: a name already
    in the table violates the constraint and the table is left as it was.
    No other constraint is declared on the table. *)
Definition insert_product (nm : string) (mn mx hum : Q) (shelf : Z)
    (db : database) : sql_result database :=
  match select_product_by_name nm db with
  | Some _ => IntegrityError
  | None =>
      let k := seq_products db + 1 in
      Ok (mkDB (products db ++ [Products.mk k nm mn mx hum shelf])
               (rooms db) (sensor_data db)
               k (seq_rooms db) (seq_sensor_data db))
  end.

(** [INSERT INTO rooms (name, current_temp, target_temp, humidity,
    current_product_id) VALUES (?, ?, ?, ?, ?)]; [name] is [UNIQUE]. *)
Definition insert_room (nm : string) (cur tgt hum : Q) (pid : option Z)
    (db : database) : sql_result database :=
  match find (fun r => String.eqb (Rooms.name r) nm) (rooms db) with
  | Some _ => IntegrityError
  | None =>
      let k := seq_rooms db + 1 in
      Ok (mkDB (products db)
               (rooms db ++ [Rooms.mk k nm cur tgt hum pid None])
               (sensor_data db)
               (seq_products db) k (seq_sensor_data db))
  end.

(** [UPDATE rooms SET ... WHERE id = ?]: [f] is the assignment of the [SET]
    clause. *)
Definition update_rooms_where_id (f : Rooms.row -> Rooms.row) (rid : Z)
    (db : database) : database :=
  mkDB (products db)
       (map (fun r => if Rooms.id r =? rid then f r else r) (rooms db))
       (sensor_data db)
       (seq_products db) (seq_rooms db) (seq_sensor_data db).

(** [INSERT INTO sensor_data (room_id, temperature, humidity)
    VALUES (?, ?, ?)]; [now] is the [CURRENT_TIMESTAMP] default. *)
Definition insert_sensor_data (rid : Z) (temp hum : Q) (now : Z)
    (db : database) : database :=
  let k := seq_sensor_data db + 1 in
  mkDB (products db) (rooms db)
       (sensor_data db ++ [SensorData.mk k rid temp hum now])
       (seq_products db) (seq_rooms db) k.

(** [cursor.executemany(stmt, params)]. *)
Fixpoint executemany {A : Type} (stmt : A -> database -> sql_result database)
    (params : list A) (db : database) : sql_result database :=
  match params with
  | [] => Ok db
  | a :: rest => bind (stmt a db) (executemany stmt rest)
  end.

End Statements.

(** ** Database set-up *)

Definition default_products : list (string * Q * Q * Q * Z) :=
  [ ("Milk"%string, 2, 4, 70, 5%Z);
    ("Curd"%string, 2, 4, 75, 7%Z);
    ("Butter"%string, -15, -10, 80, 90%Z);
    ("Cheese"%string, 1, 4, 85, 30%Z);
    ("Ice Cream"%string, -25, -18, 70, 365%Z) ].

Definition default_rooms : list (string * Q * Q * Q * option Z) :=
  [ ("Room 1"%string, 4.0, 4.0, 70.0, None);
    ("Room 2"%string, 4.0, 4.0, 70.0, None);
    ("Freezer 1"%string, -18.0, -18.0, 70.0, None) ].

(** The statements of [init_db()] on [products] and [rooms] (the part
    "Insert some default products if empty" and "Insert some rooms if
    empty"): the default products are inserted when [products] is empty, the
    default rooms when [rooms] is empty.  [init_db] itself, which first sees
    to the default administrator, is given with the user accounts. *)
Definition init_db_tables (db : database) : sql_result database :=
  bind
    (if (Z.of_nat (List.length (products db)) =? 0)%Z then
       executemany
         (fun '(nm, mn, mx, hum, shelf) => insert_product nm mn mx hum shelf)
         default_products db
     else Ok db)
    (fun db =>
       if (Z.of_nat (List.length (rooms db)) =? 0)%Z then
         executemany
           (fun '(nm, cur, tgt, hum, pid) => insert_room nm cur tgt hum pid)
           default_rooms db
       else Ok db).

(** The database right after the first start of the program. *)
Definition seed_db : database :=
  match init_db_tables empty_db with
  | Ok db => db
  | IntegrityError => empty_db
  end.

(** The rows that the default products and the default rooms make when they
    are inserted into a table whose counter stands at [k]. *)
Definition default_product_rows (k : Z) : list Products.row :=
  [ Products.mk (k + 1) "Milk" 2 4 70 5;
    Products.mk (k + 2) "Curd" 2 4 75 7;
    Products.mk (k + 3) "Butter" (-15) (-10) 80 90;
    Products.mk (k + 4) "Cheese" 1 4 85 30;
    Products.mk (k + 5) "Ice Cream" (-25) (-18) 70 365 ].

Definition default_room_rows (k : Z) : list Rooms.row :=
  [ Rooms.mk (k + 1) "Room 1" 4.0 4.0 70.0 None None;
    Rooms.mk (k + 2) "Room 2" 4.0 4.0 70.0 None None;
    Rooms.mk (k + 3) "Freezer 1" (-18.0) (-18.0) 70.0 None None ].

(** The three tables after [init_db]: a table that was empty holds the
    default rows, with the next ids; a table that had rows is as it was. *)
Definition with_default_rows (db : database) : database :=
  mkDB
    (match products db with
     | [] => default_product_rows (seq_products db)
     | _ :: _ => products db
     end)
    (match rooms db with
     | [] => default_room_rows (seq_rooms db)
     | _ :: _ => rooms db
     end)
    (sensor_data db)
    (match products db with
     | [] => seq_products db + 5
     | _ :: _ => seq_products db
     end)%Z
    (match rooms db with
     | [] => seq_rooms db + 3
     | _ :: _ => seq_rooms db
     end)%Z
    (seq_sensor_data db).

(** ** Catalog and room registry *)

(** [get_all_products()]. *)
Definition get_all_products (db : database) : list Products.row := products db.

(** [get_product_by_name(name)]. *)
Definition get_product_by_name (nm : string) (db : database)
  : option Products.row :=
  select_product_by_name nm db.

(** [add_product(name, min_temp, max_temp, humidity, shelf_life)]: [True] after
    the insertion is committed, [False] when the insertion raised
    [sqlite3.IntegrityError]; the connection is then closed without a commit. *)
Definition add_product (nm : string) (mn mx hum : Q) (shelf : Z) (db : database)
  : bool * database :=
  match insert_product nm mn mx hum shelf db with
  | Ok db' => (true, db')
  | IntegrityError => (false, db)
  end.

(** [get_all_rooms()]: the columns [id, name, current_temp, target_temp,
    humidity, current_product_id] of every room. *)
Definition get_all_rooms (db : database)
  : list (Z * string * Q * Q * Q * option Z) :=
  map (fun r => (Rooms.id r, Rooms.name r, Rooms.current_temp r,
                 Rooms.target_temp r, Rooms.humidity r,
                 Rooms.current_product_id r))
      (rooms db).

(** The way the pages pick a room out of [get_all_rooms()]:
    [next(room for room in rooms if room[0] == room_id)], with [None] when
    there is none. *)
Definition get_room (rid : Z) (db : database)
  : option (Z * string * Q * Q * Q * option Z) :=
  find (fun room => let '(i, _, _, _, _, _) := room in (i =? rid)%Z)
       (get_all_rooms db).

(** [update_room(room_id, target_temp=None, current_product_id=None)]: an
    argument left at [None] leaves its column alone. *)
Definition update_room (room_id : Z) (target_temp : option Q)
    (current_product_id : option Z) (db : database) : database :=
  let db :=
    match target_temp with
    | Some t => update_rooms_where_id (Rooms.set_target_temp t) room_id db
    | None => db
    end in
  let db :=
    match current_product_id with
    | Some p => update_rooms_where_id (Rooms.set_current_product_id p) room_id db
    | None => db
    end in
  db.

(** ** Sensor simulator *)

(** What one run of [update_sensor_data] reads from outside: the two values of
    [random.random()] behind the two calls of [random.uniform], the
    [CURRENT_TIMESTAMP] of the [UPDATE] and of the [INSERT], and
    [datetime.now()]. *)
Record sensor_env : Type := mkEnv {
  rand_temp : Q;
  rand_humidity : Q;
  now_update : Z;
  now_insert : Z;
  now_python : Z
}.

Record RoomSensor : Type := mkSensor { room_id : Z }.

(** [RoomSensor.update_sensor_data(self)].  The columns are floats, and so are
    the literals of [random.uniform(-0.2, 0.2)]; those of
    [random.uniform(-1, 1)] are integers.  The result is the returned triple
    and the database afterwards. *)
Definition update_sensor_data (env : sensor_env) (self : RoomSensor)
    (db : database) : (option Q * option Q * option Z) * database :=
  match select_room_by_id (room_id self) db with
  | Some room =>
      let new_temp :=
        Float.add (Rooms.current_temp room)
                  (Float.uniform (- Float.lit 0.2) (Float.lit 0.2)
                                 (rand_temp env)) in
      let new_humidity :=
        Float.add (Rooms.humidity room)
                  (Float.uniform_int (-1) 1 (rand_humidity env)) in
      let db :=
        update_rooms_where_id
          (Rooms.set_reading new_temp new_humidity (now_update env))
          (room_id self) db in
      let db :=
        insert_sensor_data (room_id self) new_temp new_humidity
                           (now_insert env) db in
      ((Some new_temp, Some new_humidity, Some (now_python env)), db)
  | None => ((None, None, None), db)
  end.

(** [RoomSensor(room_id)]: the constructor takes a first sample. *)
Definition RoomSensor_init (env : sensor_env) (rid : Z) (db : database)
  : RoomSensor * database :=
  let self := mkSensor rid in
  (self, snd (update_sensor_data env self db)).

(** Successive calls of [update_sensor_data] on one sensor, one per element of
    [envs]: what the reruns of the dashboard do. *)
Fixpoint sample_many (envs : list sensor_env) (self : RoomSensor)
    (db : database) : database :=
  match envs with
  | [] => db
  | env :: rest => sample_many rest self (snd (update_sensor_data env self db))
  end.

(** ** Alerts *)

(** The four messages of [check_for_alerts], with the values they carry:
    - ["Temperature too low! Current: {current_temp:.1f}°C, Minimum: {min_temp}°C"]
    - ["Temperature too high! Current: {current_temp:.1f}°C, Maximum: {max_temp}°C"]
    - ["Humidity deviation! Current: {current_humidity:.1f}%, Ideal: {ideal_humidity}%"]
    - ["Manual override active - automated controls disabled"]
    An alert is kept as the kind of message with the values formatted into
    it; [message] below gives the text. *)
Inductive alert : Type :=
| TemperatureTooLow (current_temp min_temp : Q)
| TemperatureTooHigh (current_temp max_temp : Q)
| HumidityDeviation (current_humidity ideal_humidity : Q)
| ManualOverrideActive.

Section AlertText.

(** The two number formats of the f-strings, [{x:.1f}] and [{x}], are left
    abstract. *)
Variable format_1f : Q -> string.
Variable str : Q -> string.

Open Scope string_scope.

(** The string appended to [alerts] for each alert. *)
Definition message (a : alert) : string :=
  match a with
  | TemperatureTooLow current_temp min_temp =>
      "Temperature too low! Current: " ++ format_1f current_temp
      ++ "°C, Minimum: " ++ str min_temp ++ "°C"
  | TemperatureTooHigh current_temp max_temp =>
      "Temperature too high! Current: " ++ format_1f current_temp
      ++ "°C, Maximum: " ++ str max_temp ++ "°C"
  | HumidityDeviation current_humidity ideal_humidity =>
      "Humidity deviation! Current: " ++ format_1f current_humidity
      ++ "%, Ideal: " ++ str ideal_humidity ++ "%"
  | ManualOverrideActive =>
      "Manual override active - automated controls disabled"
  end.

End AlertText.

(** The part of [st.session_state] the alert evaluation reads and writes. *)
Record session_state : Type := mkSession {
  current_room_id : Z;
  manual_override : bool;
  alerts : list alert
}.

(** The row fetched by [check_for_alerts]:
    [r.current_temp, r.humidity, r.target_temp, p.min_temp, p.max_temp,
    p.humidity]; the three product columns are [NULL] when the join finds no
    product. *)
Definition room_data : Type := Q * Q * Q * option Q * option Q * option Q.

(** [SELECT ... FROM rooms r LEFT JOIN products p ON r.current_product_id = p.id
    WHERE r.id = ?], first row. *)
Definition select_room_data (rid : Z) (db : database) : option room_data :=
  match select_room_by_id rid db with
  | None => None
  | Some r =>
      let p :=
        match Rooms.current_product_id r with
        | Some pid => select_product_by_id pid db
        | None => None
        end in
      Some (Rooms.current_temp r, Rooms.humidity r, Rooms.target_temp r,
            option_map Products.min_temp p,
            option_map Products.max_temp p,
            option_map Products.humidity p)
  end.

(** [alerts.append(x)]. *)
Definition append (l : list alert) (x : alert) : list alert := l ++ [x].

(** The list [check_for_alerts] builds from the fetched row and the override
    flag. *)
Definition collect_alerts (row : option room_data) (override : bool)
  : list alert :=
  let alerts := [] in
  let alerts :=
    match row with
    | Some (current_temp, current_humidity, _, min_temp, max_temp, ideal_humidity) =>
        let alerts :=
          match min_temp with
          | Some min_temp =>
              if Py.lt current_temp min_temp
              then append alerts (TemperatureTooLow current_temp min_temp)
              else alerts
          | None => alerts
          end in
        let alerts :=
          match max_temp with
          | Some max_temp =>
              if Py.gt current_temp max_temp
              then append alerts (TemperatureTooHigh current_temp max_temp)
              else alerts
          | None => alerts
          end in
        let alerts :=
          match ideal_humidity with
          | Some ideal_humidity =>
              if Py.gt (Py.abs (current_humidity - ideal_humidity)) 10
              then append alerts (HumidityDeviation current_humidity ideal_humidity)
              else alerts
          | None => alerts
          end in
        alerts
    | None => alerts
    end in
  let alerts :=
    if override then append alerts ManualOverrideActive else alerts in
  alerts.

(** [check_for_alerts()]. *)
Definition check_for_alerts (db : database) (st : session_state)
  : session_state :=
  let room_data := select_room_data (current_room_id st) db in
  mkSession (current_room_id st) (manual_override st)
            (collect_alerts room_data (manual_override st)).

(** ** Vocabulary of the statements *)

(** [emitted P a l]: the list [l] is the single alert [a] when the condition
    [P] holds, and is empty when it does not. *)
Definition emitted (P : Prop) (a : alert) (l : list alert) : Prop :=
  (P /\ l = [a]) \/ (~ P /\ l = []).

(** The contribution of each rule of [check_for_alerts], in isolation. *)
Definition low_rule (current_temp : Q) (min_temp : option Q) : list alert :=
  match min_temp with
  | Some m =>
      if Py.lt current_temp m then [TemperatureTooLow current_temp m] else []
  | None => []
  end.

Definition high_rule (current_temp : Q) (max_temp : option Q) : list alert :=
  match max_temp with
  | Some m =>
      if Py.gt current_temp m then [TemperatureTooHigh current_temp m] else []
  | None => []
  end.

Definition humidity_rule (current_humidity : Q) (ideal_humidity : option Q)
  : list alert :=
  match ideal_humidity with
  | Some i =>
      if Py.gt (Py.abs (current_humidity - i)) 10
      then [HumidityDeviation current_humidity i] else []
  | None => []
  end.

Definition override_rule (override : bool) : list alert :=
  if override then [ManualOverrideActive] else [].

(** The catalog invariant: product names are pairwise distinct, product ids
    are pairwise distinct and none exceeds the [AUTOINCREMENT] counter. *)
Definition catalog_ok (db : database) : Prop :=
  NoDup (map Products.name (products db))
  /\ NoDup (map Products.id (products db))
  /\ Forall (fun p => (Products.id p <= seq_products db)%Z) (products db).

(** ** States used as examples *)

(** The first default product. *)
Definition milk : Products.row := Products.mk 1 "Milk" 2 4 70 5.

(** A room at 1 degree and 60 % humidity that stores Curd (range 2 to 4,
    ideal humidity 75), viewed with the manual override switched on. *)
Definition curd_room_db : database :=
  mkDB (products seed_db)
       [Rooms.mk 1 "Room 1" 1 4 60 (Some 2%Z) None]
       [] 5 1 0.

Definition override_session : session_state := mkSession 1 true [].

(** Room 1 viewed with the manual override off. *)
Definition plain_session : session_state := mkSession 1 false [].

(** A run of the simulator that draws 0.5 and 0.25. *)
Definition half_env : sensor_env := mkEnv 0.5 0.25 10 11 12.

(** A run of the simulator in which both draws of [random.random()] are 0. *)
Definition zero_env : sensor_env := mkEnv 0 0 10 11 12.

(** ** Sequences of calls *)

(** The calls that write to [products], [rooms] or [sensor_data]: no other
    function of the program does.  [InitDb] is the call of [init_db()] at the
    top of the script, which runs again on every rerun. *)
Inductive operation : Type :=
| InitDb
| AddProduct (name : string) (min_temp max_temp humidity : Q) (shelf_life : Z)
| UpdateRoom (room_id : Z) (target_temp : option Q)
             (current_product_id : option Z)
| UpdateSensorData (env : sensor_env) (self : RoomSensor).

(** The database after one call.  For [InitDb] these are the statements of
    [init_db] on the three tables; when [init_db] raises [IntegrityError],
    on its first [INSERT], nothing is committed and the call counts for
    nothing. *)
Definition run_operation (db : database) (op : operation) : database :=
  match op with
  | InitDb =>
      match init_db_tables db with
      | Ok db' => db'
      | IntegrityError => db
      end
  | AddProduct nm mn mx hum shelf => snd (add_product nm mn mx hum shelf db)
  | UpdateRoom rid t p => update_room rid t p db
  | UpdateSensorData env self => snd (update_sensor_data env self db)
  end.

(** The database after a sequence of calls. *)
Definition run (ops : list operation) (db : database) : database :=
  fold_left run_operation ops db.

(** [a if a is not None else b]. *)
Definition or_else {A : Type} (a b : option A) : option A :=
  match a with
  | Some _ => a
  | None => b
  end.

(** The identity of the rooms: the columns [id] and [name]. *)
Definition room_keys (db : database) : list (Z * string) :=
  map (fun r => (Rooms.id r, Rooms.name r)) (rooms db).

(** The history invariant: the ids of [sensor_data] grow strictly along the
    table and none exceeds the [AUTOINCREMENT] counter. *)
Fixpoint increasing_upto (bound : Z) (ids : list Z) : Prop :=
  match ids with
  | [] => True
  | k :: rest =>
      Forall (fun j => (k < j)%Z) rest /\ (k <= bound)%Z
      /\ increasing_upto bound rest
  end.

Definition history_ok (db : database) : Prop :=
  increasing_upto (seq_sensor_data db) (map SensorData.id (sensor_data db))
  /\ Forall (fun s => In (SensorData.room_id s) (map Rooms.id (rooms db)))
            (sensor_data db).

(** ** The status shown on the dashboard *)


(** ** Truth values of Python objects *)

(** [bool(x)] for a float: false for zero only. *)
Definition bool_of_float (x : Q) : bool := negb (Qeq_bool x 0).

(** [bool(s)] for a string: false for the empty string only. *)
Definition bool_of_str (s : string) : bool := negb (String.eqb s "").

(** [bool(n)] for an integer: false for zero only. *)
Definition bool_of_int (n : Z) : bool := negb (n =? 0)%Z.

(** ** Weather feed *)

(** The dictionary built by [get_weather], key by key. *)
Record weather : Type := mkWeather {
  w_temperature : Q;
  w_humidity : Q;
  w_conditions : string;
  w_timestamp : string
}.

(** What [get_weather] reads from outside: the values of [random.random()]
    behind the two [random.uniform], the index drawn by [random.choice] and
    the formatted clock. *)
Record weather_env : Type := mkWeatherEnv {
  rand_w_temperature : Q;
  rand_w_humidity : Q;
  rand_w_index : nat;
  now_text : string
}.

Definition weather_conditions : list string :=
  ["Sunny"; "Cloudy"; "Rainy"; "Partly Cloudy"]%string.

(** [random.choice(seq)] is [seq[k]] for an index [k] drawn below
    [len(seq)]. *)
Definition choice (seq : list string) (k : nat) : string := nth k seq ""%string.

(** [get_weather(location)]; the dictionary is also stored in the session. *)
Definition get_weather (env : weather_env) : weather :=
  mkWeather (Py.uniform 15 45 (rand_w_temperature env))
            (Py.uniform 30 90 (rand_w_humidity env))
            (choice weather_conditions (rand_w_index env))
            (now_text env).

(** [st.session_state.weather_data if st.session_state.weather_data else
    get_weather()]. *)
Definition current_weather (weather_data : option weather) (env : weather_env)
  : weather :=
  match weather_data with
  | Some w => w
  | None => get_weather env
  end.

(** ** The recommendation on the pages *)

(** [SELECT r.name, p.name FROM rooms r LEFT JOIN products p ON
    r.current_product_id = p.id WHERE r.id = ?], first row. *)
Definition select_room_info (rid : Z) (db : database)
  : option (string * option string) :=
  match select_room_by_id rid db with
  | None => None
  | Some r =>
      let p :=
        match Rooms.current_product_id r with
        | Some pid => select_product_by_id pid db
        | None => None
        end in
      Some (Rooms.name r, option_map Products.name p)
  end.

(** The recommendation that [dashboard_page] displays, if it displays one:
    [current_product = room_info[1] if room_info and room_info[1] else None],
    then under [if current_product:] and [if product:] the value of
    [recommend_temperature(product, weather['temperature'])], shown under
    [if recommended_temp:]. *)
Definition dashboard_recommendation (db : database) (st : session_state)
    (w : weather) : option Q :=
  let room_info := select_room_info (current_room_id st) db in
  let current_product :=
    match room_info with
    | Some (_, Some pn) => if bool_of_str pn then Some pn else None
    | _ => None
    end in
  match current_product with
  | Some current_product =>
      match get_product_by_name current_product db with
      | Some product =>
          match recommend_temperature (Some product) (w_temperature w) with
          | Some recommended_temp =>
              if bool_of_float recommended_temp
              then Some recommended_temp else None
          | None => None
          end
      | None => None
      end
  | None => None
  end.

(** The row fetched by [temperature_control_page]:
    [r.target_temp, r.current_product_id, p.name, p.min_temp, p.max_temp]. *)
Definition control_room_data : Type :=
  Q * option Z * option string * option Q * option Q.

Definition select_control_room_data (rid : Z) (db : database)
  : option control_room_data :=
  match select_room_by_id rid db with
  | None => None
  | Some r =>
      let p :=
        match Rooms.current_product_id r with
        | Some pid => select_product_by_id pid db
        | None => None
        end in
      Some (Rooms.target_temp r, Rooms.current_product_id r,
            option_map Products.name p,
            option_map Products.min_temp p,
            option_map Products.max_temp p)
  end.

(** [x if room_data and x else default] for a float column [x]. *)
Definition float_or (x : option Q) (default : Q) : Q :=
  match x with
  | Some v => if bool_of_float v then v else default
  | None => default
  end.

(** The recommendation that [temperature_control_page] offers, if it offers
    one: with the override off and under [if current_product:], the value of
    [recommend_temperature((0, "", min_temp, max_temp, 0, 0),
    weather['temperature'])] for the bounds
    [room_data[3] if room_data and room_data[3] else -30.0] and
    [room_data[4] if room_data and room_data[4] else 30.0], shown under
    [if recommended_temp:]. *)
Definition control_recommendation (db : database) (st : session_state)
    (w : weather) : option Q :=
  let room_data := select_control_room_data (current_room_id st) db in
  let current_product :=
    match room_data with
    | Some (_, _, Some pn, _, _) => if bool_of_str pn then Some pn else None
    | _ => None
    end in
  let min_temp :=
    match room_data with
    | Some (_, _, _, mn, _) => float_or mn (-30.0)
    | None => -30.0
    end in
  let max_temp :=
    match room_data with
    | Some (_, _, _, _, mx) => float_or mx 30.0
    | None => 30.0
    end in
  if manual_override st then None
  else
    match current_product with
    | Some _ =>
        match recommend_temperature
                (Some (Products.mk 0 "" min_temp max_temp 0 0))
                (w_temperature w) with
        | Some recommended_temp =>
            if bool_of_float recommended_temp
            then Some recommended_temp else None
        | None => None
        end
    | None => None
    end.

(** The button "Apply Recommended Temperature", pressed when it is there:
    [update_room(st.session_state.current_room_id,
    target_temp=recommended_temp)]. *)
Definition apply_recommended_temperature (db : database) (st : session_state)
    (w : weather) : database :=
  match control_recommendation db st w with
  | Some recommended_temp =>
      update_room (current_room_id st) (Some recommended_temp) None db
  | None => db
  end.

(** The product selection of [temperature_control_page]: under
    [if new_product and new_product != current_product:], the id is
    [next((product[0] for product in products if product[1] == new_product),
    None)] and under [if product_id:] the room is updated. *)
Definition select_product (new_product : string) (db : database)
    (st : session_state) : database :=
  let room_data := select_control_room_data (current_room_id st) db in
  let current_product :=
    match room_data with
    | Some (_, _, Some pn, _, _) => if bool_of_str pn then Some pn else None
    | _ => None
    end in
  let products := get_all_products db in
  let differs :=
    match current_product with
    | Some pn => negb (String.eqb new_product pn)
    | None => true
    end in
  if bool_of_str new_product && differs then
    match option_map Products.id
            (find (fun product => String.eqb (Products.name product) new_product)
                  products) with
    | Some product_id =>
        if bool_of_int product_id
        then update_room (current_room_id st) None (Some product_id) db
        else db
    | None => db
    end
  else db.

(** ** User accounts and audit trail *)

Module Users.
(** A row of [users], in the order of [SELECT *]: positions 0 to 7 of the
    tuple. *)
Record row : Type := mk {
  id : Z;
  username : string;
  password_hash : string;
  role : string;
  full_name : string;
  email : string;
  approved : Z;
  created_at : Z
}.

Definition set_approved (v : Z) (r : row) : row :=
  mk (id r) (username r) (password_hash r) (role r) (full_name r) (email r)
     v (created_at r).
End Users.

Module AuditLog.
(** A row of [audit_log]. *)
Record row : Type := mk {
  id : Z;
  user_id : Z;
  action : string;
  timestamp : Z
}.
End AuditLog.

(** The tables [users] and [audit_log] of the same file.  No function of the
    program touches both these and the tables of [database], so they are kept
    in a record of their own. *)
Record accounts : Type := mkAccounts {
  users : list Users.row;
  audit_log : list AuditLog.row;
  seq_users : Z;
  seq_audit_log : Z
}.

(** [get_user(username)]. *)
Definition get_user (username : string) (acc : accounts) : option Users.row :=
  find (fun u => String.eqb (Users.username u) username) (users acc).

(** [INSERT INTO users (username, password_hash, role, full_name, email)
    VALUES (?, ?, ?, ?, ?)]; [username] is [UNIQUE], [approved] takes its
    default 0 and [created_at] the current time. *)
Definition insert_user (now : Z) (username password_hash role full_name
    email : string) (acc : accounts) : sql_result accounts :=
  match get_user username acc with
  | Some _ => IntegrityError
  | None =>
      let k := (seq_users acc + 1)%Z in
      Ok (mkAccounts
            (users acc
             ++ [Users.mk k username password_hash role full_name email 0 now])
            (audit_log acc) k (seq_audit_log acc))
  end.

(** [INSERT INTO users (username, password_hash, role, full_name, email,
    approved) VALUES (?, ?, ?, ?, ?, ?)]: as [insert_user], with the column
    [approved] given. *)
Definition insert_user_approved (now : Z) (username password_hash role
    full_name email : string) (approved : Z) (acc : accounts)
  : sql_result accounts :=
  match get_user username acc with
  | Some _ => IntegrityError
  | None =>
      let k := (seq_users acc + 1)%Z in
      Ok (mkAccounts
            (users acc
             ++ [Users.mk k username password_hash role full_name email
                          approved now])
            (audit_log acc) k (seq_audit_log acc))
  end.

(** The count of [SELECT COUNT ... FROM users WHERE role='admin']. *)
Definition count_admins (acc : accounts) : Z :=
  Z.of_nat
    (List.length
       (filter (fun u => String.eqb (Users.role u) "admin") (users acc))).

(** The accounts after [init_db]: when no user had the role [admin], the
    administrator is one more user, approved, with the next id. *)
Definition with_default_admin (admin_hash : string) (now : Z) (acc : accounts)
  : accounts :=
  if (count_admins acc =? 0)%Z then
    mkAccounts
      (users acc
       ++ [Users.mk (seq_users acc + 1) "vs27" admin_hash "admin"
                    "System Admin" "admin@flavidairy.com" 1 now])
      (audit_log acc) (seq_users acc + 1)%Z (seq_audit_log acc)
  else acc.

(** [get_pending_users()]: the columns [id, username, role, full_name, email,
    created_at] of the users with [approved = 0]. *)
Definition get_pending_users (acc : accounts)
  : list (Z * string * string * string * string * Z) :=
  map (fun u => (Users.id u, Users.username u, Users.role u,
                 Users.full_name u, Users.email u, Users.created_at u))
      (filter (fun u => (Users.approved u =? 0)%Z) (users acc)).

(** [approve_user(user_id)]. *)
Definition approve_user (user_id : Z) (acc : accounts) : accounts :=
  mkAccounts
    (map (fun u => if (Users.id u =? user_id)%Z
                   then Users.set_approved 1 u else u)
         (users acc))
    (audit_log acc) (seq_users acc) (seq_audit_log acc).

(** [reject_user(user_id)]. *)
Definition reject_user (user_id : Z) (acc : accounts) : accounts :=
  mkAccounts
    (filter (fun u => negb (Users.id u =? user_id)%Z) (users acc))
    (audit_log acc) (seq_users acc) (seq_audit_log acc).

(** [log_action(user_id, action)]; [now] is the [CURRENT_TIMESTAMP]
    default. *)
Definition log_action (now : Z) (user_id : Z) (action : string)
    (acc : accounts) : accounts :=
  let k := (seq_audit_log acc + 1)%Z in
  mkAccounts (users acc)
             (audit_log acc ++ [AuditLog.mk k user_id action now])
             (seq_users acc) k.

(** The outcome of the login form. *)
Inductive login_outcome : Type :=
| LoggedIn (user_id : Z) (username role full_name : string)
| PendingApproval
| InvalidCredentials.

(** The role offered by the registration form:
    [st.selectbox("Role", ["technician", "viewer"])]. *)
Inductive role_choice : Type :=
| Technician
| Viewer.

Definition role_name (c : role_choice) : string :=
  match c with
  | Technician => "technician"
  | Viewer => "viewer"
  end.

(** The outcome of the registration form. *)
Inductive register_outcome : Type :=
| PasswordsDoNotMatch
| FillAllFields
| RegistrationSuccessful
| UsernameExists.

Section Passwords.

(** [pbkdf2_sha256.hash(password)], with the salt it draws, and
    [pbkdf2_sha256.verify(password, hash)] of [passlib]. *)
Variable pbkdf2_sha256_hash : string -> string -> string.
Variable pbkdf2_sha256_verify : string -> string -> bool.

(** [init_db()], called at the top of the script on every rerun.  The
    [CREATE TABLE IF NOT EXISTS] statements leave the tables that exist as
    they are.  The insertions belong to one transaction, committed at the
    end: when the insertion of the administrator raises
    [sqlite3.IntegrityError], which nothing catches, the script stops and
    nothing is committed.  [salt] is the salt that the hash draws and [now]
    the [CURRENT_TIMESTAMP] of the insertion. *)
Definition init_db (salt : string) (now : Z) (acc : accounts) (db : database)
  : sql_result (accounts * database) :=
  bind
    (if (count_admins acc =? 0)%Z then
       let admin_hash := pbkdf2_sha256_hash salt "sujal@2794" in
       insert_user_approved now "vs27" admin_hash "admin" "System Admin"
                            "admin@flavidairy.com" 1 acc
     else Ok acc)
    (fun acc => bind (init_db_tables db) (fun db => Ok (acc, db))).

(** [verify_password(username, password)]. *)
Definition verify_password (username password : string) (acc : accounts)
  : option Users.row :=
  match get_user username acc with
  | Some user =>
      if pbkdf2_sha256_verify password (Users.password_hash user)
      then Some user else None
  | None => None
  end.

(** [register_user(username, password, role, full_name, email)]. *)
Definition register_user (salt : string) (now : Z)
    (username password role full_name email : string) (acc : accounts)
  : bool * accounts :=
  let password_hash := pbkdf2_sha256_hash salt password in
  match insert_user now username password_hash role full_name email acc with
  | Ok acc' => (true, acc')
  | IntegrityError => (false, acc)
  end.

(** The login form of [login_page], once submitted: the session is filled
    and the login recorded only for a user that is approved. *)
Definition login (now : Z) (username password : string) (acc : accounts)
  : login_outcome * accounts :=
  match verify_password username password acc with
  | Some user =>
      if bool_of_int (Users.approved user) then
        (LoggedIn (Users.id user) (Users.username user) (Users.role user)
                  (Users.full_name user),
         log_action now (Users.id user) "User logged in" acc)
      else (PendingApproval, acc)
  | None => (InvalidCredentials, acc)
  end.

(** The registration form of [login_page], once submitted. *)
Definition register_form (salt : string) (now : Z)
    (username password confirm_password full_name email : string)
    (role : role_choice) (acc : accounts) : register_outcome * accounts :=
  if negb (String.eqb password confirm_password) then
    (PasswordsDoNotMatch, acc)
  else if negb (bool_of_str username && bool_of_str password
                && bool_of_str full_name && bool_of_str email) then
    (FillAllFields, acc)
  else
    match register_user salt now username password (role_name role)
            full_name email acc with
    | (true, acc') => (RegistrationSuccessful, acc')
    | (false, acc') => (UsernameExists, acc')
    end.

(** The calls that write to [users] or [audit_log]. *)
Inductive account_operation : Type :=
| RegisterUser (salt : string) (now : Z)
               (username password role full_name email : string)
| ApproveUser (user_id : Z)
| RejectUser (user_id : Z)
| LogAction (now : Z) (user_id : Z) (action : string)
| Login (now : Z) (username password : string).

Definition run_account_operation (acc : accounts) (op : account_operation)
  : accounts :=
  match op with
  | RegisterUser salt now username password role full_name email =>
      snd (register_user salt now username password role full_name email acc)
  | ApproveUser user_id => approve_user user_id acc
  | RejectUser user_id => reject_user user_id acc
  | LogAction now user_id action => log_action now user_id action acc
  | Login now username password => snd (login now username password acc)
  end.

Definition run_accounts (ops : list account_operation) (acc : accounts)
  : accounts :=
  fold_left run_account_operation ops acc.

End Passwords.

(** The accounts invariant: usernames are pairwise distinct, user ids are
    pairwise distinct and none exceeds the [AUTOINCREMENT] counter. *)
Definition accounts_ok (acc : accounts) : Prop :=
  NoDup (map Users.username (users acc))
  /\ NoDup (map Users.id (users acc))
  /\ Forall (fun u => (Users.id u <= seq_users acc)%Z) (users acc).

(** What one call does to the users: the invariant is kept, the counter does
    not go down, and a user that is there afterwards has an id that was there
    before or an id above the old counter. *)
Definition users_step (acc acc' : accounts) : Prop :=
  accounts_ok acc'
  /\ (seq_users acc <= seq_users acc')%Z
  /\ Forall (fun u => In (Users.id u) (map Users.id (users acc))
                      \/ (seq_users acc < Users.id u)%Z)
            (users acc').

(** A stand-in for the password hash in examples: the salt, a separator and
    the password. *)
Definition example_hash (salt password : string) : string :=
  (salt ++ "$" ++ password)%string.

Fixpoint after_separator (s : string) : string :=
  match s with
  | EmptyString => EmptyString
  | String c rest =>
      if String.eqb (String c EmptyString) "$" then rest
      else after_separator rest
  end.

Definition example_verify (password hash : string) : bool :=
  String.eqb (after_separator hash) password.

(** No user yet: the accounts before the first start of the program. *)
Definition empty_accounts : accounts := mkAccounts [] [] 0 0.

(** The name of the default administrator held by a viewer, and no
    administrator. *)
Definition taken_accounts : accounts :=
  mkAccounts
    [Users.mk 1 "vs27" (example_hash "s1" "milk") "viewer" "V" "v@x" 1 0]
    [] 1 0.

(** Two users: an approved technician and a viewer awaiting approval. *)
Definition example_accounts : accounts :=
  mkAccounts
    [Users.mk 1 "asha" (example_hash "s1" "milk") "technician" "Asha" "a@x" 1 0;
     Users.mk 2 "ravi" (example_hash "s2" "curd") "viewer" "Ravi" "r@x" 0 5]
    [] 2 0.

(** * Properties *)

(** ** Numbers *)

Lemma Py_lt_iff (x y : Q) : Py.lt x y = true <-> x < y.
Proof.
  unfold Py.lt. rewrite Qlt_alt.
  destruct (x ?= y); split; intro H; try reflexivity; discriminate H.
Qed.

Lemma Py_gt_iff (x y : Q) : Py.gt x y = true <-> y < x.
Proof. apply Py_lt_iff. Qed.

Lemma Py_lt_false_iff (x y : Q) : Py.lt x y = false <-> y <= x.
Proof.
  rewrite <- Bool.not_true_iff_false, Py_lt_iff.
  split; [apply Qnot_lt_le | apply Qle_not_lt].
Qed.

Lemma Py_gt_false_iff (x y : Q) : Py.gt x y = false <-> x <= y.
Proof. apply Py_lt_false_iff. Qed.

(** Python's two-argument [max] and [min] pick the same argument as [Qmax] and
    [Qmin]. *)
Lemma Py_max_Qmax (a b : Q) : Py.max a b = Qmax a b.
Proof.
  unfold Py.max, Py.gt, Py.lt, Qmax, GenericMinMax.gmax.
  destruct (a ?= b); reflexivity.
Qed.

Lemma Py_min_Qmin (a b : Q) : Py.min a b = Qmin a b.
Proof.
  unfold Py.min, Py.lt, Qmin, GenericMinMax.gmin.
  rewrite <- (Qcompare_antisym a b).
  destruct (a ?= b); reflexivity.
Qed.


(** ** Binary64 rounding *)

Lemma pow2_pos (e : Z) : 0 < pow2 e.
Proof. apply Qpower_0_lt. reflexivity. Qed.

Lemma pow2_plus (a b : Z) : pow2 (a + b) == pow2 a * pow2 b.
Proof. apply Qpower_plus. discriminate. Qed.

Lemma pow2_le (a b : Z) : (a <= b)%Z -> pow2 a <= pow2 b.
Proof. intros H. apply Qpower_le_compat_l; [exact H | discriminate]. Qed.

Lemma pow2_lt (a b : Z) : (a < b)%Z -> pow2 a < pow2 b.
Proof. intros H. apply Qpower_lt_compat_l; [exact H | reflexivity]. Qed.

Lemma pow2_lt_inv (a b : Z) : pow2 a < pow2 b -> (a < b)%Z.
Proof. intros H. apply (Qpower_lt_compat_l_inv 2); [exact H | reflexivity]. Qed.

Lemma pow2_Z (n : Z) : (0 <= n)%Z -> pow2 n == inject_Z (2 ^ n).
Proof. intros H. symmetry. apply (Zpower_Qpower 2 n H). Qed.

Lemma pow2_succ (a : Z) : pow2 (a + 1) == 2 * pow2 a.
Proof. rewrite pow2_plus. change (pow2 1) with 2. ring. Qed.

Lemma log2_bounds (n : Z) :
  (0 < n)%Z ->
  pow2 (Z.log2 n) <= inject_Z n /\ inject_Z n < pow2 (Z.log2 n + 1).
Proof.
  intros Hn. destruct (Z.log2_spec n Hn) as [Hlo Hhi].
  pose proof (Z.log2_nonneg n) as H0.
  rewrite !pow2_Z by lia. rewrite <- Zle_Qle, <- Zlt_Qlt.
  split; [exact Hlo | exact Hhi].
Qed.

Lemma Q_as_quotient (x : Q) : x * inject_Z (QDen x) == inject_Z (Qnum x).
Proof.
  destruct x as [a b]. unfold Qeq. simpl. rewrite Pos.mul_1_r. lia.
Qed.

Lemma floor_log2_spec (x : Q) :
  0 < x -> pow2 (floor_log2 x) <= x /\ x < pow2 (floor_log2 x + 1).
Proof.
  intros Hx.
  assert (Ha : (0 < Qnum x)%Z).
  { unfold Qlt in Hx. simpl in Hx. rewrite Z.mul_1_r in Hx. exact Hx. }
  assert (Hb : (0 < QDen x)%Z) by reflexivity.
  destruct (log2_bounds _ Ha) as [Ha1 Ha2].
  destruct (log2_bounds _ Hb) as [Hb1 Hb2].
  pose proof (Q_as_quotient x) as Hq.
  set (la := Z.log2 (Qnum x)) in *. set (lb := Z.log2 (QDen x)) in *.
  assert (Hbpos : 0 < inject_Z (QDen x)) by (rewrite <- (Zlt_Qlt 0); exact Hb).
  assert (Hup : x < pow2 (la - lb + 1)).
  { apply (Qmult_lt_r _ _ _ Hbpos). rewrite Hq.
    eapply Qlt_le_trans; [exact Ha2 |].
    replace (la + 1)%Z with ((la - lb + 1) + lb)%Z by lia.
    rewrite pow2_plus. apply Qmult_le_l; [apply pow2_pos | exact Hb1]. }
  assert (Hlow : pow2 (la - lb - 1) < x).
  { apply (Qmult_lt_r _ _ _ Hbpos). rewrite Hq.
    eapply Qlt_le_trans; [| exact Ha1].
    replace la with ((la - lb - 1) + (lb + 1))%Z at 2 by lia.
    rewrite pow2_plus. apply Qmult_lt_l; [apply pow2_pos | exact Hb2]. }
  unfold floor_log2. fold la lb.
  destruct (Qle_bool (pow2 (la - lb)) x) eqn:Hc.
  - apply Qle_bool_iff in Hc. split; [exact Hc | exact Hup].
  - assert (Hlt : x < pow2 (la - lb)).
    { apply Qnot_le_lt. intros H. apply Qle_bool_iff in H.
      rewrite H in Hc. discriminate Hc. }
    split; [apply Qlt_le_weak; exact Hlow |].
    replace (la - lb - 1 + 1)%Z with (la - lb)%Z by lia. exact Hlt.
Qed.

Lemma floor_log2_unique (x : Q) (e : Z) :
  pow2 e <= x -> x < pow2 (e + 1) -> floor_log2 x = e.
Proof.
  intros Hlo Hhi.
  assert (Hx : 0 < x) by (eapply Qlt_le_trans; [apply pow2_pos | exact Hlo]).
  destruct (floor_log2_spec x Hx) as [Hlo' Hhi'].
  assert (H1 : (floor_log2 x < e + 1)%Z).
  { apply pow2_lt_inv. eapply Qle_lt_trans; [exact Hlo' | exact Hhi]. }
  assert (H2 : (e < floor_log2 x + 1)%Z).
  { apply pow2_lt_inv. eapply Qle_lt_trans; [exact Hlo | exact Hhi']. }
  lia.
Qed.

Lemma floor_log2_le (x y : Q) :
  0 < x -> x <= y -> (floor_log2 x <= floor_log2 y)%Z.
Proof.
  intros Hx Hxy.
  assert (Hy : 0 < y) by (eapply Qlt_le_trans; eassumption).
  destruct (floor_log2_spec x Hx) as [Hlo _].
  destruct (floor_log2_spec y Hy) as [_ Hhi].
  assert (H : (floor_log2 x < floor_log2 y + 1)%Z).
  { apply pow2_lt_inv. eapply Qle_lt_trans; [exact Hlo |].
    eapply Qle_lt_trans; [exact Hxy | exact Hhi]. }
  lia.
Qed.

Lemma round_half_even_bounds (x : Q) :
  (Qfloor x <= round_half_even x <= Qfloor x + 1)%Z.
Proof.
  unfold round_half_even.
  destruct (Qcompare (x - inject_Z (Qfloor x)) (1 # 2));
    [destruct (Z.even (Qfloor x)) | |]; lia.
Qed.

Lemma round_half_even_monotone (x y : Q) :
  x <= y -> (round_half_even x <= round_half_even y)%Z.
Proof.
  intros Hxy. pose proof (Qfloor_resp_le x y Hxy) as Hf.
  pose proof (round_half_even_bounds x) as Hx.
  pose proof (round_half_even_bounds y) as Hy.
  destruct (Z.eq_dec (Qfloor x) (Qfloor y)) as [Heq | Hne]; [| lia].
  unfold round_half_even in *. rewrite <- Heq in *.
  destruct (Qcompare_spec (x - inject_Z (Qfloor x)) (1 # 2)) as [Hx1 | Hx1 | Hx1];
    destruct (Qcompare_spec (y - inject_Z (Qfloor x)) (1 # 2)) as [Hy1 | Hy1 | Hy1];
    try destruct (Z.even (Qfloor x)); try lia; exfalso; lra.
Qed.

Lemma round_half_even_proper (x y : Q) :
  x == y -> round_half_even x = round_half_even y.
Proof.
  intros H. apply Z.le_antisymm; apply round_half_even_monotone;
    rewrite H; apply Qle_refl.
Qed.

Lemma round_half_even_Z (n : Z) : round_half_even (inject_Z n) = n.
Proof.
  unfold round_half_even. rewrite Qfloor_Z.
  destruct (Qcompare_spec (inject_Z n - inject_Z n) (1 # 2)) as [H | H | H];
    [exfalso; lra | reflexivity | exfalso; lra].
Qed.

Lemma round_half_even_nonneg (x : Q) : 0 <= x -> (0 <= round_half_even x)%Z.
Proof.
  intros H. rewrite <- (round_half_even_Z 0).
  apply round_half_even_monotone. exact H.
Qed.

(** Rounding on one grid. *)

Lemma round_on_grid_monotone (q : Z) (x y : Q) :
  x <= y -> round_on_grid q x <= round_on_grid q y.
Proof.
  intros H. unfold round_on_grid.
  apply Qmult_le_compat_r; [| apply Qlt_le_weak, pow2_pos].
  rewrite <- Zle_Qle. apply round_half_even_monotone.
  apply Qmult_le_compat_r; [exact H |].
  apply Qlt_le_weak, Qinv_lt_0_compat, pow2_pos.
Qed.

Lemma round_on_grid_fixed (q : Z) (v : Q) :
  on_grid q v -> round_on_grid q v == v.
Proof.
  intros [k Hk]. unfold round_on_grid.
  assert (H : v / pow2 q == inject_Z k).
  { rewrite Hk. field. apply Qnot_eq_sym, Qlt_not_eq, pow2_pos. }
  rewrite (round_half_even_proper _ _ H), round_half_even_Z.
  symmetry. exact Hk.
Qed.

Lemma round_on_grid_on_grid (q : Z) (x : Q) : on_grid q (round_on_grid q x).
Proof. eexists. reflexivity. Qed.

Lemma on_grid_finer (q q' : Z) (v : Q) :
  (q' <= q)%Z -> on_grid q v -> on_grid q' v.
Proof.
  intros Hq [k Hk]. exists (k * 2 ^ (q - q'))%Z.
  rewrite Hk, inject_Z_mult, <- pow2_Z by lia.
  replace q with ((q - q') + q')%Z at 1 by lia.
  rewrite pow2_plus. ring.
Qed.

Lemma on_grid_pow2 (q e : Z) : (q <= e)%Z -> on_grid q (pow2 e).
Proof.
  intros H. apply (on_grid_finer e q); [exact H |].
  exists 1%Z. ring.
Qed.

Lemma on_grid_double (q : Z) (v : Q) : on_grid q v -> on_grid (q + 1) (2 * v).
Proof.
  intros [k Hk]. exists k. rewrite Hk, pow2_succ. ring.
Qed.

Lemma on_grid_proper (q : Z) (v v' : Q) : v == v' -> on_grid q v -> on_grid q v'.
Proof. intros H [k Hk]. exists k. rewrite <- H. exact Hk. Qed.

(** Rounding of a positive number. *)

Lemma floor_log2_proper (x y : Q) :
  0 < x -> x == y -> floor_log2 y = floor_log2 x.
Proof.
  intros Hx H. destruct (floor_log2_spec x Hx) as [Hlo Hhi].
  apply floor_log2_unique.
  - lra.
  - lra.
Qed.

Lemma round_magnitude_proper (x y : Q) :
  0 < x -> x == y -> round_magnitude y == round_magnitude x.
Proof.
  intros Hx H. unfold round_magnitude, quantum, round_on_grid.
  rewrite (floor_log2_proper x y Hx H).
  assert (Hdiv : y / pow2 (Z.max (floor_log2 x - 52) (-1074))
                 == x / pow2 (Z.max (floor_log2 x - 52) (-1074)))
    by (rewrite <- H; reflexivity).
  rewrite (round_half_even_proper _ _ Hdiv). reflexivity.
Qed.

Lemma round_magnitude_nonneg (x : Q) : 0 < x -> 0 <= round_magnitude x.
Proof.
  intros Hx. unfold round_magnitude, round_on_grid.
  apply Qmult_le_0_compat; [| apply Qlt_le_weak, pow2_pos].
  rewrite <- (Zle_Qle 0). apply round_half_even_nonneg.
  apply Qmult_le_0_compat; [apply Qlt_le_weak, Hx |].
  apply Qlt_le_weak, Qinv_lt_0_compat, pow2_pos.
Qed.

Lemma round_magnitude_monotone (x y : Q) :
  0 < x -> x <= y -> round_magnitude x <= round_magnitude y.
Proof.
  intros Hx Hxy.
  assert (Hy : 0 < y) by (eapply Qlt_le_trans; eassumption).
  pose proof (floor_log2_le x y Hx Hxy) as He.
  destruct (floor_log2_spec x Hx) as [Hxlo Hxhi].
  destruct (floor_log2_spec y Hy) as [Hylo Hyhi].
  unfold round_magnitude, quantum.
  set (ex := floor_log2 x) in *. set (ey := floor_log2 y) in *.
  destruct (Z.eq_dec (Z.max (ex - 52) (-1074)) (Z.max (ey - 52) (-1074)))
    as [Heq | Hne].
  - rewrite Heq. apply round_on_grid_monotone, Hxy.
  - assert (Hlt : (ex < ey)%Z) by lia.
    assert (Hqy : Z.max (ey - 52) (-1074) = (ey - 52)%Z) by lia.
    assert (Hxg : x <= pow2 ey).
    { apply Qlt_le_weak. eapply Qlt_le_trans; [exact Hxhi |].
      apply pow2_le. lia. }
    eapply Qle_trans;
      [apply (round_on_grid_monotone _ x (pow2 ey) Hxg) |].
    rewrite (round_on_grid_fixed _ (pow2 ey)) by (apply on_grid_pow2; lia).
    rewrite <- (round_on_grid_fixed (Z.max (ey - 52) (-1074)) (pow2 ey))
      by (apply on_grid_pow2; lia).
    apply round_on_grid_monotone, Hylo.
Qed.

Lemma round_magnitude_fixed (v : Q) :
  on_grid (quantum v) v -> round_magnitude v == v.
Proof. apply round_on_grid_fixed. Qed.

Lemma round_magnitude_representable (x : Q) :
  0 < x ->
  round_magnitude x == 0
  \/ (0 < round_magnitude x
      /\ on_grid (quantum (round_magnitude x)) (round_magnitude x)).
Proof.
  intros Hx. pose proof (round_magnitude_nonneg x Hx) as H0.
  destruct (Qlt_le_dec 0 (round_magnitude x)) as [Hv | Hv];
    [right; split; [exact Hv |] | left; apply Qle_antisym; assumption].
  destruct (floor_log2_spec x Hx) as [Hxlo Hxhi].
  destruct (floor_log2_spec _ Hv) as [Hvlo Hvhi].
  unfold quantum at 1.
  set (v := round_magnitude x) in *.
  set (ex := floor_log2 x) in *. set (ev := floor_log2 v) in *.
  set (q := quantum x).
  assert (Hq : q = Z.max (ex - 52) (-1074)) by reflexivity.
  set (M := Z.max (ex + 1) q).
  assert (Hgrid : on_grid q v) by apply round_on_grid_on_grid.
  assert (HxM : x <= pow2 M).
  { apply Qlt_le_weak. eapply Qlt_le_trans; [exact Hxhi |].
    apply pow2_le. lia. }
  assert (HvM : v <= pow2 M).
  { unfold v, round_magnitude. fold q.
    rewrite <- (round_on_grid_fixed q (pow2 M)) by (apply on_grid_pow2; lia).
    apply round_on_grid_monotone, HxM. }
  destruct (Qlt_le_dec v (pow2 M)) as [Hlt | Hge].
  - assert (HevM : (ev < M)%Z).
    { apply pow2_lt_inv. eapply Qle_lt_trans; [exact Hvlo | exact Hlt]. }
    apply (on_grid_finer q); [lia | exact Hgrid].
  - assert (Heq : v == pow2 M) by (apply Qle_antisym; assumption).
    assert (Hev : ev = M).
    { apply floor_log2_unique; rewrite Heq;
        [apply Qle_refl | apply pow2_lt; lia]. }
    apply (on_grid_proper _ (pow2 M)); [symmetry; exact Heq |].
    apply on_grid_pow2. lia.
Qed.

Lemma quantum_double (v : Q) :
  0 < v -> (quantum (2 * v) <= quantum v + 1)%Z.
Proof.
  intros Hv. destruct (floor_log2_spec v Hv) as [Hlo Hhi].
  assert (He : floor_log2 (2 * v) = (floor_log2 v + 1)%Z).
  { apply floor_log2_unique.
    - rewrite pow2_succ. lra.
    - rewrite pow2_succ. lra. }
  unfold quantum. rewrite He. lia.
Qed.

(** The rounding with its sign. *)

Lemma binary64_round_pos (x : Q) :
  0 < x -> binary64_round x == round_magnitude x.
Proof.
  intros Hx. unfold binary64_round.
  destruct x as [[| p | p] d]; [discriminate Hx | | discriminate Hx].
  simpl Qnum. apply Qred_correct.
Qed.

Lemma binary64_round_neg (x : Q) :
  x < 0 -> binary64_round x == - round_magnitude (- x).
Proof.
  intros Hx. unfold binary64_round.
  destruct x as [[| p | p] d]; [discriminate Hx | discriminate Hx |].
  simpl Qnum. apply Qred_correct.
Qed.

Lemma binary64_round_zero (x : Q) : x == 0 -> binary64_round x = 0.
Proof.
  intros Hx. unfold binary64_round.
  destruct x as [[| p | p] d]; [reflexivity | discriminate Hx | discriminate Hx].
Qed.

Lemma binary64_round_opp (x : Q) :
  binary64_round (- x) == - binary64_round x.
Proof.
  destruct (Q_dec 0 x) as [[Hx | Hx] | Hx].
  - rewrite (binary64_round_pos x Hx).
    rewrite binary64_round_neg by lra.
    rewrite (round_magnitude_proper x (- - x) Hx) by ring. reflexivity.
  - rewrite (binary64_round_neg x Hx).
    rewrite binary64_round_pos by lra. ring.
  - rewrite (binary64_round_zero x) by (symmetry; exact Hx).
    rewrite (binary64_round_zero (- x)) by (rewrite <- Hx; reflexivity).
    reflexivity.
Qed.

Lemma binary64_round_monotone (x y : Q) :
  x <= y -> binary64_round x <= binary64_round y.
Proof.
  intros Hxy.
  assert (Hneg : forall z, z < 0 -> binary64_round z <= 0).
  { intros z Hz. rewrite (binary64_round_neg z Hz).
    pose proof (round_magnitude_nonneg (- z)) as H. lra. }
  assert (Hpos : forall z, 0 < z -> 0 <= binary64_round z).
  { intros z Hz. rewrite (binary64_round_pos z Hz).
    apply round_magnitude_nonneg, Hz. }
  destruct (Q_dec 0 y) as [[Hy | Hy] | Hy].
  - destruct (Q_dec 0 x) as [[Hx | Hx] | Hx].
    + rewrite (binary64_round_pos x Hx), (binary64_round_pos y Hy).
      apply round_magnitude_monotone; assumption.
    + eapply Qle_trans; [apply Hneg, Hx | apply Hpos, Hy].
    + rewrite (binary64_round_zero x) by (symmetry; exact Hx).
      apply Hpos, Hy.
  - assert (Hx : x < 0) by lra.
    rewrite (binary64_round_neg x Hx), (binary64_round_neg y Hy).
    apply Qopp_le_compat.
    apply round_magnitude_monotone; lra.
  - rewrite (binary64_round_zero y) by (symmetry; exact Hy).
    destruct (Q_dec 0 x) as [[Hx | Hx] | Hx].
    + exfalso. lra.
    + apply Hneg, Hx.
    + rewrite (binary64_round_zero x) by (symmetry; exact Hx). apply Qle_refl.
Qed.

Lemma binary64_round_proper (x y : Q) :
  x == y -> binary64_round x == binary64_round y.
Proof.
  intros H. apply Qle_antisym; apply binary64_round_monotone;
    rewrite H; apply Qle_refl.
Qed.

(** The numbers that the rounding leaves alone. *)

Lemma binary64_round_representable (x : Q) : representable (binary64_round x).
Proof.
  destruct (Q_dec 0 x) as [[Hx | Hx] | Hx].
  - pose proof (binary64_round_pos x Hx) as Hfl.
    destruct (round_magnitude_representable x Hx) as [Hz | [Hv Hg]].
    + left. rewrite Hfl. exact Hz.
    + right. left. split; [rewrite Hfl; exact Hv |].
      assert (Hq : quantum (binary64_round x) = quantum (round_magnitude x)).
      { unfold quantum.
        rewrite (floor_log2_proper (round_magnitude x) (binary64_round x) Hv)
          by (symmetry; exact Hfl).
        reflexivity. }
      rewrite Hq. apply (on_grid_proper _ (round_magnitude x));
        [symmetry; exact Hfl | exact Hg].
  - pose proof (binary64_round_neg x Hx) as Hfl.
    assert (Hx' : 0 < - x) by lra.
    destruct (round_magnitude_representable (- x) Hx') as [Hz | [Hv Hg]].
    + left. rewrite Hfl, Hz. reflexivity.
    + right. right. split; [rewrite Hfl; lra |].
      assert (Heq : round_magnitude (- x) == - binary64_round x)
        by (rewrite Hfl; ring).
      assert (Hq : quantum (- binary64_round x)
                   = quantum (round_magnitude (- x))).
      { unfold quantum.
        rewrite (floor_log2_proper _ _ Hv Heq). reflexivity. }
      rewrite Hq. apply (on_grid_proper _ (round_magnitude (- x)));
        [exact Heq | exact Hg].
  - left. rewrite (binary64_round_zero x) by (symmetry; exact Hx).
    reflexivity.
Qed.

Lemma binary64_round_fixed_representable (v : Q) :
  representable v -> binary64_round v == v.
Proof.
  intros [Hz | [[Hv Hg] | [Hv Hg]]].
  - rewrite (binary64_round_zero v Hz). symmetry. exact Hz.
  - rewrite (binary64_round_pos v Hv). apply round_magnitude_fixed, Hg.
  - rewrite (binary64_round_neg v Hv), (round_magnitude_fixed _ Hg). ring.
Qed.

Lemma representable_double (v : Q) : representable v -> representable (2 * v).
Proof.
  intros [Hz | [[Hv Hg] | [Hv Hg]]].
  - left. rewrite Hz. reflexivity.
  - right. left. split; [lra |].
    apply (on_grid_finer (quantum v + 1));
      [apply quantum_double, Hv | apply on_grid_double, Hg].
  - right. right. split; [lra |].
    assert (Hv' : 0 < - v) by lra.
    assert (Heq : 2 * - v == - (2 * v)) by ring.
    assert (Hq : quantum (- (2 * v)) = quantum (2 * - v)).
    { unfold quantum. rewrite (floor_log2_proper (2 * - v) (- (2 * v)));
        [reflexivity | lra | exact Heq]. }
    rewrite Hq. apply (on_grid_proper _ (2 * - v)); [exact Heq |].
    apply (on_grid_finer (quantum (- v) + 1));
      [apply quantum_double, Hv' | apply on_grid_double, Hg].
Qed.

Lemma binary64_round_fixed (x : Q) :
  binary64_round (binary64_round x) == binary64_round x.
Proof.
  apply binary64_round_fixed_representable, binary64_round_representable.
Qed.

Lemma binary64_round_double (x : Q) :
  binary64_round (2 * binary64_round x) == 2 * binary64_round x.
Proof.
  apply binary64_round_fixed_representable, representable_double,
    binary64_round_representable.
Qed.

Lemma binary64_round_one : binary64_round 1 == 1.
Proof. reflexivity. Qed.

(** The error of the rounding. *)

Lemma round_half_even_error (x : Q) :
  Qabs (inject_Z (round_half_even x) - x) <= 1 # 2.
Proof.
  pose proof (Qfloor_le x) as Hlo. pose proof (Qlt_floor x) as Hhi.
  rewrite inject_Z_plus in Hhi. change (inject_Z 1) with 1 in Hhi.
  unfold round_half_even.
  destruct (Qcompare_spec (x - inject_Z (Qfloor x)) (1 # 2)) as [H | H | H].
  - destruct (Z.even (Qfloor x));
      [| rewrite inject_Z_plus; change (inject_Z 1) with 1];
      apply Qabs_Qle_condition; split; lra.
  - apply Qabs_Qle_condition; split; lra.
  - rewrite inject_Z_plus. change (inject_Z 1) with 1.
    apply Qabs_Qle_condition; split; lra.
Qed.

Lemma round_on_grid_error (q : Z) (x : Q) :
  Qabs (round_on_grid q x - x) <= pow2 (q - 1).
Proof.
  pose proof (pow2_pos q) as Hq.
  pose proof (round_half_even_error (x / pow2 q)) as H.
  unfold round_on_grid.
  set (r := inject_Z (round_half_even (x / pow2 q))) in *.
  assert (Hx : r * pow2 q - x == (r - x / pow2 q) * pow2 q).
  { field. apply Qnot_eq_sym, Qlt_not_eq, Hq. }
  rewrite Hx, Qabs_Qmult, (Qabs_pos (pow2 q)) by lra.
  assert (Hp : pow2 (q - 1) == (1 # 2) * pow2 q).
  { replace q with ((q - 1) + 1)%Z at 2 by lia. rewrite pow2_succ. field. }
  rewrite Hp. apply Qmult_le_compat_r; [exact H | lra].
Qed.

Lemma round_magnitude_error (x : Q) :
  0 < x -> Qabs (round_magnitude x - x) <= pow2 (-53) * x + pow2 (-1075).
Proof.
  intros Hx. destruct (floor_log2_spec x Hx) as [Hlo _].
  eapply Qle_trans; [apply round_on_grid_error |].
  pose proof (pow2_pos (-1075)) as H1.
  pose proof (pow2_pos (-53)) as H2.
  unfold quantum.
  destruct (Z.max_spec (floor_log2 x - 52) (-1074)) as [[_ ->] | [_ ->]].
  - change (-1074 - 1)%Z with (-1075)%Z.
    assert (0 <= pow2 (-53) * x) by (apply Qmult_le_0_compat; lra). lra.
  - replace (floor_log2 x - 52 - 1)%Z with (-53 + floor_log2 x)%Z by lia.
    rewrite pow2_plus.
    assert (pow2 (-53) * pow2 (floor_log2 x) <= pow2 (-53) * x)
      by (apply Qmult_le_l; [exact H2 | exact Hlo]).
    lra.
Qed.

Lemma binary64_round_error (x : Q) :
  Qabs (binary64_round x - x) <= pow2 (-53) * Qabs x + pow2 (-1075).
Proof.
  pose proof (pow2_pos (-1075)) as H1.
  destruct (Q_dec 0 x) as [[Hx | Hx] | Hx].
  - rewrite (binary64_round_pos x Hx), (Qabs_pos x) by lra.
    apply round_magnitude_error, Hx.
  - rewrite (binary64_round_neg x Hx), (Qabs_neg x) by lra.
    assert (Hx' : 0 < - x) by lra.
    pose proof (round_magnitude_error (- x) Hx') as H.
    assert (Heq : - round_magnitude (- x) - x == - (round_magnitude (- x) - - x))
      by ring.
    rewrite Heq, Qabs_opp. exact H.
  - rewrite (binary64_round_zero x) by (symmetry; exact Hx).
    rewrite <- Hx. change (Qabs (0 - 0)) with 0. change (Qabs 0) with 0.
    lra.
Qed.

(** On these quotients, among them ties, the rounding is the one of the
    binary64 arithmetic of the kernel. *)
Lemma binary64_round_as_kernel :
  forallb
    (fun '(a, b) =>
       match KernelFloat.to_Q (KernelFloat.quotient a b) with
       | Some q => Qeq_bool q (binary64_round (a # b))
       | None => false
       end)
    [ (1%Z, 5%positive); ((-1)%Z, 5%positive); (1%Z, 3%positive);
      (2%Z, 3%positive); (1%Z, 10%positive); ((-7)%Z, 3%positive);
      (19%Z, 5%positive); (21%Z, 5%positive); (123456789%Z, 1000%positive);
      (9007199254740993%Z, 1%positive); (9007199254740995%Z, 1%positive);
      (9007199254740993%Z, 2%positive); (9007199254740991%Z, 4%positive);
      (1%Z, 9007199254740991%positive); (0%Z, 7%positive) ]
  = true.
Proof. vm_compute. reflexivity. Qed.

(** ** Float operations *)

Lemma representable_proper (v v' : Q) :
  v == v' -> representable v -> representable v'.
Proof.
  intros H [Hz | [[Hv Hg] | [Hv Hg]]].
  - left. rewrite <- H. exact Hz.
  - right. left. split; [rewrite <- H; exact Hv |].
    unfold quantum. rewrite (floor_log2_proper v v' Hv H).
    apply (on_grid_proper _ v); [exact H | exact Hg].
  - right. right. split; [rewrite <- H; exact Hv |].
    assert (Hv' : 0 < - v) by lra.
    assert (H' : - v == - v') by (rewrite H; reflexivity).
    unfold quantum. rewrite (floor_log2_proper (- v) (- v') Hv' H').
    apply (on_grid_proper _ (- v)); [exact H' | exact Hg].
Qed.

(** The binary64 numbers are the numbers that the rounding leaves alone. *)
Lemma representable_iff (v : Q) : representable v <-> binary64_round v == v.
Proof.
  split; [apply binary64_round_fixed_representable |].
  intros H. apply (representable_proper (binary64_round v)); [exact H |].
  apply binary64_round_representable.
Qed.

Lemma Float_lit_fixed (x : Q) : binary64_round (Float.lit x) == Float.lit x.
Proof. apply binary64_round_fixed. Qed.

(** The float 0.2 is a little more than 0.2. *)
Lemma Float_lit_02 : Float.lit 0.2 = 3602879701896397 # 18014398509481984.
Proof. vm_compute. reflexivity. Qed.

(** [random.uniform(-c, c)] stays between its bounds, also when rounded. *)
Lemma Float_uniform_bounds (c u : Q) :
  binary64_round c == c -> 0 <= c -> Py.is_random u ->
  - c <= Float.uniform (- c) c u <= c.
Proof.
  intros Hc H0 [Hu0 Hu1]. unfold Float.uniform, Float.add, Float.mul, Float.sub.
  assert (Hw : binary64_round (c - - c) == 2 * c).
  { rewrite (binary64_round_proper (c - - c) (2 * binary64_round c))
      by (rewrite Hc; ring).
    rewrite binary64_round_double, Hc. reflexivity. }
  set (w := binary64_round (c - - c)) in *.
  assert (Hww : binary64_round w == w) by apply binary64_round_fixed.
  assert (Hm0 : 0 <= binary64_round (w * u)).
  { change 0 with (binary64_round 0) at 1. apply binary64_round_monotone.
    apply Qmult_le_0_compat; lra. }
  assert (Hm1 : binary64_round (w * u) <= w).
  { rewrite <- Hww at 2. apply binary64_round_monotone.
    assert (0 <= w * (1 - u)) by (apply Qmult_le_0_compat; lra). lra. }
  set (m := binary64_round (w * u)) in *.
  split.
  - rewrite <- Hc at 1. rewrite <- binary64_round_opp.
    apply binary64_round_monotone. lra.
  - rewrite <- Hc at 2. apply binary64_round_monotone. lra.
Qed.

(** [random.uniform(-1, 1)] stays between its bounds, also when rounded. *)
Lemma Float_uniform_int_bounds (u : Q) :
  Py.is_random u -> - (1) <= Float.uniform_int (-1) 1 u <= 1.
Proof.
  intros [Hu0 Hu1]. unfold Float.uniform_int, Float.add, Float.mul.
  change (inject_Z (1 - -1)) with 2. change (inject_Z (-1)) with (- (1)).
  assert (Hm0 : 0 <= binary64_round (2 * u)).
  { change 0 with (binary64_round 0) at 1. apply binary64_round_monotone. lra. }
  assert (Hm1 : binary64_round (2 * u) <= 2).
  { change 2 with (binary64_round 2) at 2. apply binary64_round_monotone. lra. }
  set (m := binary64_round (2 * u)) in *.
  split.
  - change (- (1)) with (binary64_round (- (1))) at 1.
    apply binary64_round_monotone. lra.
  - change 1 with (binary64_round 1) at 2.
    apply binary64_round_monotone. lra.
Qed.

(** A sum with a perturbation of at most [c] lies between the rounded
    difference and the rounded sum with [c]. *)
Lemma Float_add_bounds (x d c : Q) :
  - c <= d <= c -> Float.sub x c <= Float.add x d <= Float.add x c.
Proof.
  intros [Hlo Hhi]. unfold Float.sub, Float.add.
  split; apply binary64_round_monotone; lra.
Qed.

(** It is away from [x] by at most [c] and the rounding error of the sum. *)
Lemma Float_add_error (x d c : Q) :
  - c <= d <= c ->
  Qabs (Float.add x d - x) <= c + pow2 (-53) * (Qabs x + c) + pow2 (-1075).
Proof.
  intros [Hlo Hhi]. unfold Float.add.
  pose proof (binary64_round_error (x + d)) as He.
  assert (Hd : Qabs d <= c) by (apply Qabs_Qle_condition; split; lra).
  pose proof (Qabs_triangle x d) as Htri.
  pose proof (pow2_pos (-53)) as Hp.
  assert (Hmul : pow2 (-53) * Qabs (x + d) <= pow2 (-53) * (Qabs x + c)).
  { apply Qmult_le_l; [exact Hp | lra]. }
  assert (Heq : binary64_round (x + d) - x
                == (binary64_round (x + d) - (x + d)) + d) by ring.
  rewrite Heq.
  eapply Qle_trans; [apply Qabs_triangle |]. lra.
Qed.

(** ** Recommendation *)

Section Recommendation.

Variable product : Products.row.
Variable external_temp : Q.

Let lo := Products.min_temp product.
Let hi := Products.max_temp product.
Let midpoint := (lo + hi) / 2.

Lemma recommend_hot :
  30 < external_temp ->
  recommend_temperature (Some product) external_temp
  = Some (Qmax lo (midpoint - 1)).
Proof.
  intros H. unfold recommend_temperature.
  apply Py_gt_iff in H. rewrite H, Py_max_Qmax. reflexivity.
Qed.

Lemma recommend_cold :
  external_temp < 10 ->
  recommend_temperature (Some product) external_temp
  = Some (Qmin hi (midpoint + 1)).
Proof.
  intros H. unfold recommend_temperature.
  assert (Hle : external_temp <= 30) by lra.
  apply Py_gt_false_iff in Hle. apply Py_lt_iff in H.
  rewrite Hle, H, Py_min_Qmin. reflexivity.
Qed.

Lemma recommend_mild :
  10 <= external_temp -> external_temp <= 30 ->
  recommend_temperature (Some product) external_temp = Some midpoint.
Proof.
  intros H10 H30. unfold recommend_temperature.
  apply Py_gt_false_iff in H30. apply Py_lt_false_iff in H10.
  rewrite H30, H10. reflexivity.
Qed.

(** With a well-formed range the recommendation never leaves the range. *)
Lemma recommend_within_range :
  lo <= hi ->
  exists r, recommend_temperature (Some product) external_temp = Some r
            /\ lo <= r /\ r <= hi.
Proof.
  intros Hrange.
  assert (Hmid : lo <= midpoint /\ midpoint <= hi).
  { unfold midpoint. split.
    - apply Qle_shift_div_l; lra.
    - apply Qle_shift_div_r; lra. }
  destruct (Qlt_le_dec 30 external_temp) as [Hhot | Hnothot].
  - rewrite (recommend_hot Hhot). eexists; split; [reflexivity |].
    split.
    + apply Q.le_max_l.
    + apply Q.max_lub; lra.
  - destruct (Qlt_le_dec external_temp 10) as [Hcold | Hnotcold].
    + rewrite (recommend_cold Hcold). eexists; split; [reflexivity |].
      split.
      * apply Q.min_glb; lra.
      * apply Q.le_min_l.
    + rewrite (recommend_mild Hnotcold Hnothot).
      eexists; split; [reflexivity | exact Hmid].
Qed.

End Recommendation.



(** ** Alerts *)


Lemma emitted_in (P : Prop) (a : alert) (l : list alert) :
  emitted P a l -> (In a l <-> P).
Proof.
  intros [[HP ->] | [HP ->]]; simpl; tauto.
Qed.

(** The appends of [check_for_alerts] lay the rules out one after the other. *)
Lemma collect_alerts_rules (ct ch tt : Q) (mn mx ih : option Q) (ovr : bool) :
  collect_alerts (Some (ct, ch, tt, mn, mx, ih)) ovr
  = low_rule ct mn ++ high_rule ct mx ++ humidity_rule ch ih ++ override_rule ovr.
Proof.
  unfold collect_alerts, append, low_rule, high_rule, humidity_rule,
    override_rule.
  destruct mn as [mn |]; [destruct (Py.lt ct mn) |];
    (destruct mx as [mx |]; [destruct (Py.gt ct mx) |]);
    (destruct ih as [ih |]; [destruct (Py.gt (Py.abs (ch - ih)) 10) |]);
    destruct ovr; reflexivity.
Qed.

Lemma collect_alerts_no_row (ovr : bool) :
  collect_alerts None ovr = override_rule ovr.
Proof. destruct ovr; reflexivity. Qed.

Lemma check_for_alerts_alerts (db : database) (st : session_state) :
  alerts (check_for_alerts db st)
  = collect_alerts (select_room_data (current_room_id st) db)
                   (manual_override st).
Proof. reflexivity. Qed.



(** C5.  For a room without an assigned product the three checks are skipped:
    the alert list is empty when the override is off (and is the override
    notice alone when it is on), whatever the temperature and the humidity of
    the room.  More generally a missing bound or a missing ideal humidity
    never produces the corresponding alert. *)
Theorem check_for_alerts_without_product
    (db : database) (st : session_state) (room : Rooms.row) :
  select_room_by_id (current_room_id st) db = Some room ->
  Rooms.current_product_id room = None ->
  (manual_override st = false -> alerts (check_for_alerts db st) = [])
  /\ alerts (check_for_alerts db st) = override_rule (manual_override st)
  /\ (forall ct ch tt mx ih ovr a b,
        ~ In (TemperatureTooLow a b)
             (collect_alerts (Some (ct, ch, tt, None, mx, ih)) ovr))
  /\ (forall ct ch tt mn ih ovr a b,
        ~ In (TemperatureTooHigh a b)
             (collect_alerts (Some (ct, ch, tt, mn, None, ih)) ovr))
  /\ (forall ct ch tt mn mx ovr a b,
        ~ In (HumidityDeviation a b)
             (collect_alerts (Some (ct, ch, tt, mn, mx, None)) ovr)).
Proof.
  intros Hroom Hnone.
  assert (Halerts :
            alerts (check_for_alerts db st) = override_rule (manual_override st)).
  { rewrite check_for_alerts_alerts. unfold select_room_data.
    rewrite Hroom, Hnone. simpl. rewrite collect_alerts_rules. reflexivity. }
  split; [| split; [exact Halerts | split; [| split]]].
  - intros Hoff. rewrite Halerts, Hoff. reflexivity.
  - intros ct ch tt mx ih ovr a b. rewrite collect_alerts_rules.
    unfold low_rule, high_rule, humidity_rule, override_rule.
    destruct mx as [mx |]; [destruct (Py.gt ct mx) |];
      (destruct ih as [ih |]; [destruct (Py.gt (Py.abs (ch - ih)) 10) |]);
      destruct ovr; simpl; intuition discriminate.
  - intros ct ch tt mn ih ovr a b. rewrite collect_alerts_rules.
    unfold low_rule, high_rule, humidity_rule, override_rule.
    destruct mn as [mn |]; [destruct (Py.lt ct mn) |];
      (destruct ih as [ih |]; [destruct (Py.gt (Py.abs (ch - ih)) 10) |]);
      destruct ovr; simpl; intuition discriminate.
  - intros ct ch tt mn mx ovr a b. rewrite collect_alerts_rules.
    unfold low_rule, high_rule, humidity_rule, override_rule.
    destruct mn as [mn |]; [destruct (Py.lt ct mn) |];
      (destruct mx as [mx |]; [destruct (Py.gt ct mx) |]);
      destruct ovr; simpl; intuition discriminate.
Qed.

Lemma check_for_alerts_without_product_witness :
  alerts (check_for_alerts seed_db plain_session) = [].
Proof.
  exact (proj1 (check_for_alerts_without_product seed_db plain_session
                  (Rooms.mk 1 "Room 1" 4.0 4.0 70.0 None None)
                  eq_refl eq_refl)
               eq_refl).
Defined.

(** C10.  When the current room id does not resolve to a room, the
    temperature and humidity checks are skipped and the override notice is
    still appended: the alert list is the notice alone when the override is
    on and is empty when it is off. *)
Theorem check_for_alerts_missing_room (db : database) (st : session_state) :
  select_room_by_id (current_room_id st) db = None ->
  (manual_override st = true ->
   alerts (check_for_alerts db st) = [ManualOverrideActive])
  /\ (manual_override st = false -> alerts (check_for_alerts db st) = []).
Proof.
  intros Hnone.
  assert (Halerts :
            alerts (check_for_alerts db st) = override_rule (manual_override st)).
  { rewrite check_for_alerts_alerts. unfold select_room_data.
    rewrite Hnone. apply collect_alerts_no_row. }
  split; intros Hovr; rewrite Halerts, Hovr; reflexivity.
Qed.

Lemma check_for_alerts_missing_room_witness :
  alerts (check_for_alerts seed_db (mkSession 99 true [])) = [ManualOverrideActive]
  /\ alerts (check_for_alerts seed_db (mkSession 99 false [])) = [].
Proof.
  split.
  - exact (proj1 (check_for_alerts_missing_room
                    seed_db (mkSession 99 true []) eq_refl) eq_refl).
  - exact (proj2 (check_for_alerts_missing_room
                    seed_db (mkSession 99 false []) eq_refl) eq_refl).
Defined.

(** ** Queries after updates *)

Section Queries.

Open Scope Z_scope.

Lemma find_map {A B : Type} (g : B -> bool) (h : A -> B) (l : list A) :
  find g (map h l) = option_map h (find (fun x => g (h x)) l).
Proof.
  induction l as [| x l IH]; simpl; [reflexivity |].
  destruct (g (h x)); [reflexivity | exact IH].
Qed.

Lemma find_In_not_None {A : Type} (g : A -> bool) (l : list A) (x : A) :
  In x l -> g x = true -> exists y, find g l = Some y.
Proof.
  intros Hin Hg. destruct (find g l) as [y |] eqn:Hfind.
  - exists y. reflexivity.
  - rewrite (find_none g l Hfind x Hin) in Hg. discriminate Hg.
Qed.

(** [get_room] is the projection of the row selected by id. *)
Lemma get_room_select (rid : Z) (db : database) :
  get_room rid db
  = option_map
      (fun r => (Rooms.id r, Rooms.name r, Rooms.current_temp r,
                 Rooms.target_temp r, Rooms.humidity r,
                 Rooms.current_product_id r))
      (select_room_by_id rid db).
Proof.
  unfold get_room, get_all_rooms, select_room_by_id.
  rewrite find_map. reflexivity.
Qed.

Variable f : Rooms.row -> Rooms.row.
Hypothesis f_id : forall r, Rooms.id (f r) = Rooms.id r.

(** An [UPDATE ... WHERE id = k] that leaves the key alone rewrites the row
    selected by [k] ... *)
Lemma select_room_updated (k : Z) (db : database) :
  select_room_by_id k (update_rooms_where_id f k db)
  = option_map f (select_room_by_id k db).
Proof.
  unfold select_room_by_id, update_rooms_where_id. simpl.
  induction (rooms db) as [| r l IH]; simpl; [reflexivity |].
  destruct (Rooms.id r =? k) eqn:Hk.
  - rewrite f_id, Hk. reflexivity.
  - rewrite Hk. exact IH.
Qed.

(** ... and no row selected by another key. *)
Lemma select_room_not_updated (k rid : Z) (db : database) :
  rid <> k ->
  select_room_by_id rid (update_rooms_where_id f k db)
  = select_room_by_id rid db.
Proof.
  intros Hne. unfold select_room_by_id, update_rooms_where_id. simpl.
  induction (rooms db) as [| r l IH]; simpl; [reflexivity |].
  destruct (Rooms.id r =? k) eqn:Hk.
  - rewrite f_id. apply Z.eqb_eq in Hk.
    assert (Hr : (Rooms.id r =? rid) = false) by (apply Z.eqb_neq; lia).
    rewrite Hr. exact IH.
  - destruct (Rooms.id r =? rid); [reflexivity | exact IH].
Qed.

End Queries.

(** ** Catalog *)

(** C6.  [add_product] with the name of a product already in the catalog
    returns [False] and leaves the database, hence that product and every
    other one, as it was. *)
Theorem add_product_duplicate_name
    (db : database) (p : Products.row) (mn mx hum : Q) (shelf : Z) :
  In p (get_all_products db) ->
  add_product (Products.name p) mn mx hum shelf db = (false, db)
  /\ get_all_products (snd (add_product (Products.name p) mn mx hum shelf db))
     = get_all_products db
  /\ get_product_by_name (Products.name p)
       (snd (add_product (Products.name p) mn mx hum shelf db))
     = get_product_by_name (Products.name p) db.
Proof.
  intros Hin.
  assert (Hadd : add_product (Products.name p) mn mx hum shelf db = (false, db)).
  { unfold add_product, insert_product, select_product_by_name.
    destruct (find_In_not_None
                (fun q => String.eqb (Products.name q) (Products.name p))
                (products db) p Hin (String.eqb_refl _)) as [q Hq].
    rewrite Hq. reflexivity. }
  rewrite Hadd. repeat split.
Qed.

Lemma add_product_duplicate_name_witness :
  add_product "Milk" 0 8 50 3 seed_db = (false, seed_db).
Proof.
  apply (add_product_duplicate_name seed_db milk 0 8 50 3).
  left. reflexivity.
Defined.

(** C3, as the program has it.  [add_product] compares nothing with
    [min_temp] and [max_temp]: a product whose name is not yet in the catalog
    is accepted and stored with the two bounds as given, in whatever order
    they are, and the only refusal is that of a name already present. *)
Theorem add_product_no_range_check
    (db : database) (nm : string) (mn mx hum : Q) (shelf : Z) :
  (get_product_by_name nm db = None ->
   fst (add_product nm mn mx hum shelf db) = true
   /\ get_all_products (snd (add_product nm mn mx hum shelf db))
      = get_all_products db
        ++ [Products.mk (seq_products db + 1) nm mn mx hum shelf])
  /\ (fst (add_product nm mn mx hum shelf db) = false ->
      exists p, get_product_by_name nm db = Some p).
Proof.
  unfold add_product, insert_product, get_product_by_name.
  destruct (select_product_by_name nm db) as [p |]; simpl; split.
  - intros H. discriminate H.
  - intros _. exists p. reflexivity.
  - intros _. split; reflexivity.
  - intros H. discriminate H.
Qed.

Lemma add_product_no_range_check_witness :
  fst (add_product "Paneer" 6 4 70 5 seed_db) = true
  /\ get_all_products (snd (add_product "Paneer" 6 4 70 5 seed_db))
     = get_all_products seed_db ++ [Products.mk 6 "Paneer" 6 4 70 5].
Proof.
  exact (proj1 (add_product_no_range_check seed_db "Paneer" 6 4 70 5) eq_refl).
Defined.

(** A product with [min_temp = 6] above [max_temp = 4] is accepted: the call
    returns [True] and the record is in the catalog afterwards. *)
Lemma add_product_inverted_range_accepted :
  4 < 6
  /\ fst (add_product "Paneer" 6 4 70 5 seed_db) = true
  /\ In (Products.mk 6 "Paneer" 6 4 70 5)
        (get_all_products (snd (add_product "Paneer" 6 4 70 5 seed_db)))
  /\ ~ (forall p,
          In p (get_all_products (snd (add_product "Paneer" 6 4 70 5 seed_db))) ->
          Products.min_temp p <= Products.max_temp p).
Proof.
  split; [reflexivity | split; [reflexivity | split]].
  - vm_compute. tauto.
  - intros H.
    specialize (H (Products.mk 6 "Paneer" 6 4 70 5)).
    assert (Hin : In (Products.mk 6 "Paneer" 6 4 70 5)
                     (get_all_products
                        (snd (add_product "Paneer" 6 4 70 5 seed_db))))
      by (vm_compute; tauto).
    apply H in Hin. vm_compute in Hin. apply Hin. reflexivity.
Qed.

(** The catalog invariant holds after set-up and is kept by [add_product]. *)
Lemma select_product_by_name_None (nm : string) (db : database) :
  select_product_by_name nm db = None ->
  ~ In nm (map Products.name (products db)).
Proof.
  intros Hnone Hin. apply in_map_iff in Hin as (p & Hp & Hin).
  pose proof (find_none _ _ Hnone p Hin) as Hp'. simpl in Hp'.
  rewrite Hp, String.eqb_refl in Hp'. discriminate Hp'.
Qed.

Lemma catalog_ok_seed : catalog_ok seed_db.
Proof.
  unfold catalog_ok. split; [| split].
  - vm_compute. repeat constructor; simpl; intuition discriminate.
  - vm_compute. repeat constructor; simpl; intuition discriminate.
  - vm_compute. repeat constructor; discriminate.
Qed.

Lemma catalog_ok_add_product
    (db : database) (nm : string) (mn mx hum : Q) (shelf : Z) :
  catalog_ok db -> catalog_ok (snd (add_product nm mn mx hum shelf db)).
Proof.
  intros (Hnames & Hids & Hseq).
  unfold add_product, insert_product.
  destruct (select_product_by_name nm db) as [p |] eqn:Hsel; simpl;
    [repeat split; assumption |].
  unfold catalog_ok. simpl. rewrite !map_app. simpl.
  split; [| split].
  - apply NoDup_app; [exact Hnames | repeat constructor; simpl; tauto |].
    intros a Ha [<- | []]. revert Ha.
    apply select_product_by_name_None, Hsel.
  - apply NoDup_app; [exact Hids | repeat constructor; simpl; tauto |].
    intros a Ha [<- | []]. apply in_map_iff in Ha as (q & Hq & Hin).
    rewrite Forall_forall in Hseq. specialize (Hseq q Hin). lia.
  - apply Forall_app. split.
    + eapply Forall_impl; [| exact Hseq]. simpl. intros q Hq. lia.
    + constructor; [simpl; lia | constructor].
Qed.

(** ** Room registry *)

(** C4, as the program has it.  For an existing room, [update_room] with a
    product id followed by [get_room] shows that id as the product of the
    room, the other columns being as before.  [update_room] with [None] for
    the product is no assignment at all: the database is returned as it was,
    so the room is still there and keeps the product it had. *)
Theorem update_room_product_round_trip
    (db : database) (rid p : Z)
    (i : Z) (nm : string) (ct tt h : Q) (pid : option Z) :
  get_room rid db = Some (i, nm, ct, tt, h, pid) ->
  get_room rid (update_room rid None (Some p) db) = Some (i, nm, ct, tt, h, Some p)
  /\ update_room rid None None db = db
  /\ get_room rid (update_room rid None None db) = Some (i, nm, ct, tt, h, pid).
Proof.
  intros Hroom. split; [| split; [reflexivity | exact Hroom]].
  rewrite get_room_select in Hroom |- *.
  unfold update_room.
  rewrite select_room_updated by reflexivity.
  destruct (select_room_by_id rid db) as [r |]; [| discriminate Hroom].
  simpl in Hroom |- *. injection Hroom as <- <- <- <- <- <-. reflexivity.
Qed.

Lemma update_room_product_round_trip_witness :
  get_room 1 (update_room 1 None (Some 2%Z) seed_db)
  = Some (1%Z, "Room 1"%string, 4.0, 4.0, 70.0, Some 2%Z).
Proof.
  exact (proj1 (update_room_product_round_trip seed_db 1 2
                  1 "Room 1" 4.0 4.0 70.0 None eq_refl)).
Defined.

(** Room 1 is given product 2, then [update_room] is called with no product:
    the room still refers to product 2. *)
Lemma update_room_none_keeps_product :
  get_room 1 (update_room 1 None (Some 2%Z) seed_db)
  = Some (1%Z, "Room 1"%string, 4.0, 4.0, 70.0, Some 2%Z)
  /\ get_room 1 (update_room 1 None None (update_room 1 None (Some 2%Z) seed_db))
     = Some (1%Z, "Room 1"%string, 4.0, 4.0, 70.0, Some 2%Z)
  /\ get_room 1 (update_room 1 None None (update_room 1 None (Some 2%Z) seed_db))
     <> Some (1%Z, "Room 1"%string, 4.0, 4.0, 70.0, None).
Proof.
  split; [reflexivity | split; [reflexivity |]].
  intros H. vm_compute in H. discriminate H.
Qed.

(** ** Sensor simulator *)

Section Sampling.

Variable env : sensor_env.
Variable self : RoomSensor.
Variable db : database.

Let outcome := update_sensor_data env self db.

(** The tables a sample leaves alone. *)
Lemma update_sensor_data_products : products (snd outcome) = products db.
Proof.
  unfold outcome, update_sensor_data.
  destruct (select_room_by_id (room_id self) db); reflexivity.
Qed.

Lemma update_sensor_data_other_rooms (rid : Z) :
  rid <> room_id self ->
  select_room_by_id rid (snd outcome) = select_room_by_id rid db.
Proof.
  intros Hne. unfold outcome, update_sensor_data.
  destruct (select_room_by_id (room_id self) db) as [room |];
    [| reflexivity].
  simpl snd.
  change (select_room_by_id rid (insert_sensor_data ?r ?t ?h ?n ?d))
    with (select_room_by_id rid d).
  apply select_room_not_updated; [reflexivity | exact Hne].
Qed.

Lemma update_sensor_data_history :
  exists added,
    sensor_data (snd outcome) = sensor_data db ++ added
    /\ (List.length added <= 1)%nat.
Proof.
  unfold outcome, update_sensor_data.
  destruct (select_room_by_id (room_id self) db) as [room |].
  - eexists. split; [reflexivity | apply le_n].
  - exists []. split; [symmetry; apply app_nil_r | apply Nat.le_0_l].
Qed.

(** The sample of a room that does not exist. *)
Lemma update_sensor_data_not_found :
  select_room_by_id (room_id self) db = None ->
  outcome = ((None, None, None), db).
Proof.
  intros Hnone. unfold outcome, update_sensor_data.
  rewrite Hnone. reflexivity.
Qed.

(** The sample of a room that exists. *)
Lemma update_sensor_data_found (room : Rooms.row) :
  select_room_by_id (room_id self) db = Some room ->
  let new_temp :=
    Float.add (Rooms.current_temp room)
              (Float.uniform (- Float.lit 0.2) (Float.lit 0.2)
                             (rand_temp env)) in
  let new_humidity :=
    Float.add (Rooms.humidity room)
              (Float.uniform_int (-1) 1 (rand_humidity env)) in
  fst outcome = (Some new_temp, Some new_humidity, Some (now_python env))
  /\ select_room_by_id (room_id self) (snd outcome)
     = Some (Rooms.set_reading new_temp new_humidity (now_update env) room)
  /\ sensor_data (snd outcome)
     = sensor_data db
       ++ [SensorData.mk (seq_sensor_data db + 1) (room_id self)
             new_temp new_humidity (now_insert env)].
Proof.
  intros Hroom. unfold outcome, update_sensor_data.
  rewrite Hroom. simpl fst. simpl snd.
  split; [reflexivity | split; [| reflexivity]].
  change (select_room_by_id ?k (insert_sensor_data ?r ?t ?h ?n ?d))
    with (select_room_by_id k d).
  rewrite select_room_updated by reflexivity.
  rewrite Hroom. reflexivity.
Qed.

End Sampling.

(** C7.  The recommendation for no product is [None]; the sample of a room id
    that does not resolve returns the triple [(None, None, None)] and leaves
    the database as it was. *)
Theorem not_found_is_reported
    (external_temp : Q) (env : sensor_env) (self : RoomSensor) (db : database) :
  recommend_temperature None external_temp = None
  /\ (select_room_by_id (room_id self) db = None ->
      update_sensor_data env self db = ((None, None, None), db)).
Proof.
  split; [reflexivity | apply update_sensor_data_not_found].
Qed.

Lemma not_found_is_reported_witness :
  update_sensor_data half_env (mkSensor 99) seed_db
  = ((None, None, None), seed_db).
Proof.
  exact (proj2 (not_found_is_reported 20 half_env (mkSensor 99) seed_db)
               eq_refl).
Defined.

Lemma half_is_random : Py.is_random 0.5 /\ Py.is_random 0.25.
Proof.
  unfold Py.is_random.
  repeat split; try reflexivity; vm_compute; discriminate.
Defined.

Lemma zero_is_random : Py.is_random 0.
Proof. unfold Py.is_random. split; [apply Qle_refl | reflexivity]. Defined.

Lemma tiny_powers :
  pow2 (-53) = 1 # 9007199254740992 /\ pow2 (-1075) <= 1 # 1152921504606846976.
Proof.
  split; [vm_compute; reflexivity |].
  change (1 # 1152921504606846976) with (pow2 (-60)). apply pow2_le. lia.
Qed.

(** The temperature of a sample taken at [x]. *)
Lemma new_temp_bounds (x u : Q) :
  Py.is_random u ->
  let y := Float.add x (Float.uniform (- Float.lit 0.2) (Float.lit 0.2) u) in
  Float.sub x (Float.lit 0.2) <= y <= Float.add x (Float.lit 0.2)
  /\ Qabs (y - x) <= 0.2 + pow2 (-53) * (Qabs x + 1).
Proof.
  intros Hu y.
  assert (Hd : - Float.lit 0.2
               <= Float.uniform (- Float.lit 0.2) (Float.lit 0.2) u
               <= Float.lit 0.2).
  { apply Float_uniform_bounds; [apply Float_lit_fixed | | exact Hu].
    rewrite Float_lit_02. discriminate. }
  split; [apply Float_add_bounds, Hd |].
  eapply Qle_trans; [apply Float_add_error, Hd |].
  destruct tiny_powers as [-> Htiny].
  pose proof (Qabs_nonneg x) as Hx.
  rewrite Float_lit_02. lra.
Qed.

(** The humidity of a sample taken at [x]. *)
Lemma new_humidity_bounds (x u : Q) :
  Py.is_random u ->
  let y := Float.add x (Float.uniform_int (-1) 1 u) in
  Float.sub x 1 <= y <= Float.add x 1
  /\ Qabs (y - x) <= 1 + pow2 (-53) * (Qabs x + 2).
Proof.
  intros Hu y.
  pose proof (Float_uniform_int_bounds u Hu) as Hd.
  split; [apply Float_add_bounds, Hd |].
  eapply Qle_trans; [apply Float_add_error, Hd |].
  destruct tiny_powers as [-> Htiny].
  pose proof (Qabs_nonneg x) as Hx. lra.
Qed.

(** C8, as the program has it.  For an existing room and two draws of
    [random.random()], the sample returns a temperature between the float
    results of the stored temperature minus and plus the float 0.2, hence
    within [0.2 + 2^-53 * (|stored| + 1)] of the stored one, and a humidity
    between the float results of the stored humidity minus and plus 1, hence
    within [1 + 2^-53 * (|stored| + 2)] of the stored one; the room then
    holds this reading, with its other columns as before, and the history is
    the old history followed by one record of this room carrying the same
    temperature and humidity. *)
Theorem update_sensor_data_rounded_sample
    (env : sensor_env) (self : RoomSensor) (db : database) (room : Rooms.row) :
  select_room_by_id (room_id self) db = Some room ->
  Py.is_random (rand_temp env) ->
  Py.is_random (rand_humidity env) ->
  exists (new_temp new_humidity : Q) (sample : SensorData.row),
    fst (update_sensor_data env self db)
    = (Some new_temp, Some new_humidity, Some (now_python env))
    /\ Float.sub (Rooms.current_temp room) (Float.lit 0.2) <= new_temp
       <= Float.add (Rooms.current_temp room) (Float.lit 0.2)
    /\ Qabs (new_temp - Rooms.current_temp room)
       <= 0.2 + pow2 (-53) * (Qabs (Rooms.current_temp room) + 1)
    /\ Float.sub (Rooms.humidity room) 1 <= new_humidity
       <= Float.add (Rooms.humidity room) 1
    /\ Qabs (new_humidity - Rooms.humidity room)
       <= 1 + pow2 (-53) * (Qabs (Rooms.humidity room) + 2)
    /\ select_room_by_id (room_id self) (snd (update_sensor_data env self db))
       = Some (Rooms.mk (Rooms.id room) (Rooms.name room)
                 new_temp (Rooms.target_temp room) new_humidity
                 (Rooms.current_product_id room) (Some (now_update env)))
    /\ sensor_data (snd (update_sensor_data env self db))
       = sensor_data db ++ [sample]
    /\ SensorData.room_id sample = room_id self
    /\ SensorData.temperature sample = new_temp
    /\ SensorData.humidity sample = new_humidity.
Proof.
  intros Hroom Ht Hh.
  destruct (update_sensor_data_found env self db room Hroom)
    as (Hret & Hrow & Hhist).
  destruct (new_temp_bounds (Rooms.current_temp room) (rand_temp env) Ht)
    as [Htb Hte].
  destruct (new_humidity_bounds (Rooms.humidity room) (rand_humidity env) Hh)
    as [Hhb Hhe].
  eexists _, _, _.
  split; [exact Hret |].
  split; [exact Htb |]. split; [exact Hte |].
  split; [exact Hhb |]. split; [exact Hhe |].
  split; [exact Hrow |]. split; [exact Hhist |].
  split; [reflexivity | split; reflexivity].
Qed.

Lemma update_sensor_data_rounded_sample_witness :
  exists (new_temp new_humidity : Q) (sample : SensorData.row),
    fst (update_sensor_data half_env (mkSensor 1) seed_db)
    = (Some new_temp, Some new_humidity, Some 12%Z)
    /\ Float.sub 4.0 (Float.lit 0.2) <= new_temp
       <= Float.add 4.0 (Float.lit 0.2)
    /\ Qabs (new_temp - 4.0) <= 0.2 + pow2 (-53) * (Qabs 4.0 + 1)
    /\ Float.sub 70.0 1 <= new_humidity <= Float.add 70.0 1
    /\ Qabs (new_humidity - 70.0) <= 1 + pow2 (-53) * (Qabs 70.0 + 2)
    /\ select_room_by_id 1 (snd (update_sensor_data half_env (mkSensor 1) seed_db))
       = Some (Rooms.mk 1 "Room 1" new_temp 4.0 new_humidity None (Some 10%Z))
    /\ sensor_data (snd (update_sensor_data half_env (mkSensor 1) seed_db))
       = sensor_data seed_db ++ [sample]
    /\ SensorData.room_id sample = 1%Z
    /\ SensorData.temperature sample = new_temp
    /\ SensorData.humidity sample = new_humidity.
Proof.
  exact (update_sensor_data_rounded_sample half_env (mkSensor 1) seed_db
           (Rooms.mk 1 "Room 1" 4.0 4.0 70.0 None None)
           eq_refl (proj1 half_is_random) (proj2 half_is_random)).
Defined.

(** C8 does not hold as written: the reading can be farther than 0.2 from the
    stored temperature.  Room 1 holds 4.0 after the set-up; when
    [random.random()] returns 0, the sample returns the float
    3.79999999999999982236431605997495353221893310546875, which is more than
    0.2 below 4.0.  The binary64 arithmetic of the kernel gives the same
    number. *)
Lemma update_sensor_data_exceeds :
  Py.is_random (rand_temp zero_env)
  /\ Py.is_random (rand_humidity zero_env)
  /\ select_room_by_id 1 seed_db
     = Some (Rooms.mk 1 "Room 1" 4.0 4.0 70.0 None None)
  /\ fst (update_sensor_data zero_env (mkSensor 1) seed_db)
     = (Some (4278419646001971 # 1125899906842624), Some 69, Some 12%Z)
  /\ ~ Qabs ((4278419646001971 # 1125899906842624) - 4.0) <= 0.2
  /\ KernelFloat.to_Q KernelFloat.reading_at_seed
     = Some (4278419646001971 # 1125899906842624).
Proof.
  split; [exact zero_is_random |]. split; [exact zero_is_random |].
  split; [reflexivity |].
  split; [vm_compute; reflexivity |].
  split; [| vm_compute; reflexivity].
  intros H. vm_compute in H. apply H. reflexivity.
Qed.

(** C9.  A sample leaves every product record as it was, whether or not the
    room exists; it changes no room other than the sampled one and only adds
    to the history, at most one record. *)
Theorem update_sensor_data_frame
    (env : sensor_env) (self : RoomSensor) (db : database) :
  get_all_products (snd (update_sensor_data env self db)) = get_all_products db
  /\ (forall nm,
        get_product_by_name nm (snd (update_sensor_data env self db))
        = get_product_by_name nm db)
  /\ (forall rid,
        rid <> room_id self ->
        select_room_by_id rid (snd (update_sensor_data env self db))
        = select_room_by_id rid db)
  /\ (exists added,
        sensor_data (snd (update_sensor_data env self db))
        = sensor_data db ++ added
        /\ (List.length added <= 1)%nat).
Proof.
  split; [| split; [| split]].
  - apply update_sensor_data_products.
  - intros nm. unfold get_product_by_name, select_product_by_name.
    rewrite update_sensor_data_products. reflexivity.
  - apply update_sensor_data_other_rooms.
  - apply update_sensor_data_history.
Qed.

(** * Further properties of the code *)

(** ** Set-up *)

Lemma init_db_tables_outcome (db : database) :
  init_db_tables db = Ok (with_default_rows db).
Proof.
  destruct db as [ps rs sd sp sr ss].
  destruct ps as [| p ps], rs as [| r rs];
    cbv -[Z.add]; rewrite <- ?Z.add_assoc; reflexivity.
Qed.

Lemma with_default_rows_twice (db : database) :
  with_default_rows (with_default_rows db) = with_default_rows db.
Proof.
  destruct db as [ps rs sd sp sr ss].
  destruct ps as [| p ps], rs as [| r rs]; reflexivity.
Qed.

Lemma count_admins_with_default_admin (h : string) (now : Z) (acc : accounts) :
  (count_admins (with_default_admin h now acc) =? 0)%Z = false.
Proof.
  unfold with_default_admin.
  destruct (count_admins acc =? 0)%Z eqn:Hc; [| exact Hc].
  apply Z.eqb_neq. unfold count_admins. cbn [users].
  rewrite filter_app, length_app. cbn [filter Users.role String.eqb].
  cbn. lia.
Qed.

(** The statements of [init_db] on the three tables are those of a call
    [InitDb]. *)
Lemma init_db_run_operation
    (pbkdf2_sha256_hash : string -> string -> string)
    (salt : string) (now : Z) (acc acc' : accounts) (db db' : database) :
  init_db pbkdf2_sha256_hash salt now acc db = Ok (acc', db') ->
  db' = run_operation db InitDb.
Proof.
  unfold init_db, run_operation. rewrite init_db_tables_outcome.
  destruct (if (count_admins acc =? 0)%Z then _ else _) as [acc1 |];
    cbv beta iota zeta delta [bind]; intros H; [| discriminate H].
  injection H as _ <-. reflexivity.
Qed.

(** [init_db] raises [IntegrityError] exactly when no user has the role
    [admin] while the username [vs27] is taken.  Otherwise it returns, and
    then: the default administrator has been added if no user had the role
    [admin]; [products] holds the five default products, with the next five
    ids, if it was empty, and [rooms] the three default rooms, with no
    product and no date, if it was empty; a table that had rows, the history
    and the audit trail are as they were; and a second call, whatever salt
    and clock it meets, changes nothing. *)
Theorem init_db_idempotent
    (pbkdf2_sha256_hash : string -> string -> string)
    (salt : string) (now : Z) (acc : accounts) (db : database) :
  (init_db pbkdf2_sha256_hash salt now acc db = IntegrityError
   <-> count_admins acc = 0%Z /\ get_user "vs27" acc <> None)
  /\ (forall (acc' : accounts) (db' : database),
        init_db pbkdf2_sha256_hash salt now acc db = Ok (acc', db') ->
        acc' = with_default_admin (pbkdf2_sha256_hash salt "sujal@2794"%string) now acc
        /\ db' = with_default_rows db
        /\ forall (salt' : string) (now' : Z),
             init_db pbkdf2_sha256_hash salt' now' acc' db' = Ok (acc', db')).
Proof.
  assert (Hagain :
            forall salt' now',
              init_db pbkdf2_sha256_hash salt' now'
                (with_default_admin (pbkdf2_sha256_hash salt "sujal@2794"%string) now acc)
                (with_default_rows db)
              = Ok (with_default_admin (pbkdf2_sha256_hash salt "sujal@2794"%string)
                      now acc,
                    with_default_rows db)).
  { intros salt' now'. unfold init_db.
    rewrite count_admins_with_default_admin, init_db_tables_outcome,
      with_default_rows_twice.
    reflexivity. }
  unfold init_db, insert_user_approved. rewrite init_db_tables_outcome.
  destruct (count_admins acc =? 0)%Z eqn:Hc.
  - assert (Hadmin :
              with_default_admin (pbkdf2_sha256_hash salt "sujal@2794"%string)
                now acc
              = mkAccounts
                  (users acc
                   ++ [Users.mk (seq_users acc + 1) "vs27"
                         (pbkdf2_sha256_hash salt "sujal@2794"%string) "admin"
                         "System Admin" "admin@flavidairy.com" 1 now])
                  (audit_log acc) (seq_users acc + 1)%Z (seq_audit_log acc))
      by (unfold with_default_admin; rewrite Hc; reflexivity).
    apply Z.eqb_eq in Hc.
    destruct (get_user "vs27" acc) as [u |] eqn:Hu;
      cbv beta iota zeta delta [bind].
    + split.
      * split; [intros _; split; [exact Hc | discriminate] | reflexivity].
      * intros acc' db' H. discriminate H.
    + split.
      * split; [discriminate | intros [_ H]; exfalso; apply H; reflexivity].
      * intros acc' db' H. injection H as <- <-. rewrite <- Hadmin.
        split; [reflexivity | split; [reflexivity | exact Hagain]].
  - assert (Hadmin :
              with_default_admin (pbkdf2_sha256_hash salt "sujal@2794"%string)
                now acc = acc)
      by (unfold with_default_admin; rewrite Hc; reflexivity).
    apply Z.eqb_neq in Hc. cbv beta iota zeta delta [bind]. split.
    + split; [discriminate | intros [H _]; exfalso; apply Hc, H].
    + intros acc' db' H. injection H as <- <-. rewrite Hadmin in Hagain.
      split; [symmetry; exact Hadmin | split; [reflexivity | exact Hagain]].
Qed.

Lemma init_db_idempotent_witness :
  init_db example_hash "s0" 7 taken_accounts empty_db = IntegrityError
  /\ forall (salt' : string) (now' : Z),
       init_db example_hash salt' now'
         (mkAccounts
            [Users.mk 1 "vs27" (example_hash "s0" "sujal@2794") "admin"
                      "System Admin" "admin@flavidairy.com" 1 7]
            [] 1 0)
         seed_db
       = Ok (mkAccounts
               [Users.mk 1 "vs27" (example_hash "s0" "sujal@2794") "admin"
                         "System Admin" "admin@flavidairy.com" 1 7]
               [] 1 0,
             seed_db).
Proof.
  split.
  - apply (proj2 (proj1 (init_db_idempotent example_hash "s0" 7 taken_accounts
                           empty_db))).
    split; [reflexivity | vm_compute; discriminate].
  - assert (H : init_db example_hash "s0" 7 empty_accounts empty_db
                = Ok (mkAccounts
                        [Users.mk 1 "vs27" (example_hash "s0" "sujal@2794")
                                  "admin" "System Admin"
                                  "admin@flavidairy.com" 1 7]
                        [] 1 0,
                      seed_db))
      by (vm_compute; reflexivity).
    exact (proj2 (proj2 (proj2 (init_db_idempotent example_hash "s0" 7
                                  empty_accounts empty_db)
                           _ _ H))).
Defined.

(** ** Room registry *)

Lemma map_if_id_absent (f : Rooms.row -> Rooms.row) (k : Z)
    (l : list Rooms.row) :
  find (fun r => (Rooms.id r =? k)%Z) l = None ->
  map (fun r => if (Rooms.id r =? k)%Z then f r else r) l = l.
Proof.
  induction l as [| r l IH]; simpl; [reflexivity |].
  destruct (Rooms.id r =? k)%Z; [intros H; discriminate H |].
  intros H. rewrite (IH H). reflexivity.
Qed.

Lemma update_rooms_where_id_absent (f : Rooms.row -> Rooms.row) (k : Z)
    (db : database) :
  select_room_by_id k db = None -> update_rooms_where_id f k db = db.
Proof.
  unfold select_room_by_id, update_rooms_where_id. intros H.
  rewrite (map_if_id_absent f k _ H). destruct db; reflexivity.
Qed.

(** [update_room] on a room id that does not resolve changes nothing: no room
    is created and no other room is touched. *)
Theorem update_room_missing_room
    (db : database) (rid : Z) (t : option Q) (p : option Z) :
  select_room_by_id rid db = None -> update_room rid t p db = db.
Proof.
  intros Hnone. unfold update_room.
  destruct t as [t |].
  - rewrite (update_rooms_where_id_absent _ _ _ Hnone).
    destruct p as [p |]; [| reflexivity].
    apply update_rooms_where_id_absent, Hnone.
  - destruct p as [p |]; [| reflexivity].
    apply update_rooms_where_id_absent, Hnone.
Qed.

Lemma update_room_missing_room_witness :
  update_room 99 (Some 5) (Some 1%Z) seed_db = seed_db.
Proof.
  exact (update_room_missing_room seed_db 99 (Some 5) (Some 1%Z) eq_refl).
Defined.

Lemma select_room_update_room
    (db : database) (rid : Z) (t : option Q) (p : option Z) :
  select_room_by_id rid (update_room rid t p db)
  = option_map
      (fun r =>
         Rooms.mk (Rooms.id r) (Rooms.name r) (Rooms.current_temp r)
           (match t with Some v => v | None => Rooms.target_temp r end)
           (Rooms.humidity r)
           (match p with
            | Some v => Some v
            | None => Rooms.current_product_id r
            end)
           (Rooms.last_updated r))
      (select_room_by_id rid db).
Proof.
  unfold update_room.
  destruct t as [t |], p as [p |];
    rewrite ?select_room_updated by reflexivity;
    destruct (select_room_by_id rid db) as [[i nm ct tt h pid lu] |];
    reflexivity.
Qed.

Lemma select_room_update_room_other
    (db : database) (rid rid' : Z) (t : option Q) (p : option Z) :
  rid' <> rid ->
  select_room_by_id rid' (update_room rid t p db) = select_room_by_id rid' db.
Proof.
  intros Hne. unfold update_room.
  destruct t as [t |], p as [p |];
    rewrite ?select_room_not_updated by (reflexivity || exact Hne);
    reflexivity.
Qed.

(** For an existing room, [update_room] followed by [get_room] shows each
    column that was given with its new value and each column left at [None]
    with its old one; identity and readings of the room are as before. *)
Theorem update_room_round_trip
    (db : database) (rid : Z) (t : option Q) (p : option Z)
    (i : Z) (nm : string) (ct tt h : Q) (pid : option Z) :
  get_room rid db = Some (i, nm, ct, tt, h, pid) ->
  get_room rid (update_room rid t p db)
  = Some (i, nm, ct, match t with Some v => v | None => tt end, h,
          or_else p pid).
Proof.
  rewrite !get_room_select, select_room_update_room.
  destruct (select_room_by_id rid db) as [r |]; [| intros H; discriminate H].
  simpl. intros H. injection H as <- <- <- <- <- <-.
  destruct p; reflexivity.
Qed.

Lemma update_room_round_trip_witness :
  get_room 1 (update_room 1 (Some 3.5) None seed_db)
  = Some (1%Z, "Room 1"%string, 4.0, 3.5, 70.0, None).
Proof.
  exact (update_room_round_trip seed_db 1 (Some 3.5) None
           1 "Room 1" 4.0 4.0 70.0 None eq_refl).
Defined.

(** [update_room] writes to nothing but the columns [target_temp] and
    [current_product_id] of the room it is given: the catalog, the history,
    every other room, and the identity and the readings of all rooms are as
    before. *)
Theorem update_room_frame
    (db : database) (rid : Z) (t : option Q) (p : option Z) :
  products (update_room rid t p db) = products db
  /\ sensor_data (update_room rid t p db) = sensor_data db
  /\ (forall rid', rid' <> rid ->
        get_room rid' (update_room rid t p db) = get_room rid' db)
  /\ map (fun r => (Rooms.id r, Rooms.name r, Rooms.current_temp r,
                    Rooms.humidity r, Rooms.last_updated r))
         (rooms (update_room rid t p db))
     = map (fun r => (Rooms.id r, Rooms.name r, Rooms.current_temp r,
                      Rooms.humidity r, Rooms.last_updated r))
           (rooms db).
Proof.
  split; [| split; [| split]].
  - unfold update_room. destruct t, p; reflexivity.
  - unfold update_room. destruct t, p; reflexivity.
  - intros rid' Hne. rewrite !get_room_select.
    rewrite select_room_update_room_other by exact Hne. reflexivity.
  - unfold update_room, update_rooms_where_id.
    destruct t, p; simpl; rewrite ?map_map; try reflexivity;
      apply map_ext; intros r;
      repeat (destruct (Rooms.id _ =? rid)%Z; simpl); reflexivity.
Qed.

(** The last writer wins, column by column: two successive [update_room] on
    the same room amount to one, in which each column takes the later value
    that was given for it. *)
Theorem update_room_last_writer_wins
    (db : database) (rid : Z) (t1 t2 : option Q) (p1 p2 : option Z) :
  update_room rid t2 p2 (update_room rid t1 p1 db)
  = update_room rid (or_else t2 t1) (or_else p2 p1) db.
Proof.
  unfold update_room, update_rooms_where_id, or_else.
  destruct db as [ps rs sd sp sr ss].
  destruct t1, t2, p1, p2; simpl; try reflexivity;
    f_equal; rewrite ?map_map; apply map_ext;
    intros [i nm ct tt h pid lu]; simpl;
    destruct (i =? rid)%Z eqn:Hid; simpl; repeat (rewrite Hid; simpl);
    reflexivity.
Qed.

(** ** Catalog *)

Lemma find_app_first {A : Type} (g : A -> bool) (l l' : list A) :
  find g (l ++ l')
  = match find g l with
    | Some x => Some x
    | None => find g l'
    end.
Proof.
  induction l as [| x l IH]; simpl; [reflexivity |].
  destruct (g x); [reflexivity | exact IH].
Qed.

(** A product added under a new name is found again under that name, with the
    bounds, humidity and shelf life that were given and the next id; from then
    on the name is taken, so that any further [add_product] with it fails. *)
Theorem add_product_then_lookup
    (db : database) (nm : string) (mn mx hum : Q) (shelf : Z) :
  get_product_by_name nm db = None ->
  get_product_by_name nm (snd (add_product nm mn mx hum shelf db))
  = Some (Products.mk (seq_products db + 1) nm mn mx hum shelf)
  /\ (forall mn' mx' hum' shelf',
        add_product nm mn' mx' hum' shelf'
          (snd (add_product nm mn mx hum shelf db))
        = (false, snd (add_product nm mn mx hum shelf db))).
Proof.
  intros Hnone.
  assert (Hfound :
            get_product_by_name nm (snd (add_product nm mn mx hum shelf db))
            = Some (Products.mk (seq_products db + 1) nm mn mx hum shelf)).
  { unfold get_product_by_name, add_product, insert_product in *.
    rewrite Hnone. unfold select_product_by_name in *. simpl.
    rewrite find_app_first, Hnone. simpl.
    rewrite String.eqb_refl. reflexivity. }
  split; [exact Hfound |].
  intros mn' mx' hum' shelf'.
  unfold get_product_by_name in Hfound.
  unfold add_product at 1. unfold insert_product at 1.
  rewrite Hfound. reflexivity.
Qed.

Lemma add_product_then_lookup_witness :
  get_product_by_name "Paneer" (snd (add_product "Paneer" 2 6 75 10 seed_db))
  = Some (Products.mk 6 "Paneer" 2 6 75 10).
Proof.
  exact (proj1 (add_product_then_lookup seed_db "Paneer" 2 6 75 10 eq_refl)).
Defined.

(** [add_product] never changes what a name or an id already resolves to,
    whether it succeeds or not; rooms and history are left alone. *)
Theorem add_product_keeps_lookups
    (db : database) (nm : string) (mn mx hum : Q) (shelf : Z) :
  (forall nm' p,
     get_product_by_name nm' db = Some p ->
     get_product_by_name nm' (snd (add_product nm mn mx hum shelf db)) = Some p)
  /\ (forall pid p,
        select_product_by_id pid db = Some p ->
        select_product_by_id pid (snd (add_product nm mn mx hum shelf db))
        = Some p)
  /\ rooms (snd (add_product nm mn mx hum shelf db)) = rooms db
  /\ sensor_data (snd (add_product nm mn mx hum shelf db)) = sensor_data db.
Proof.
  unfold add_product, insert_product, get_product_by_name.
  destruct (select_product_by_name nm db) as [q |]; simpl.
  - repeat split; intros; assumption.
  - unfold select_product_by_name, select_product_by_id. simpl.
    split; [| split; [| split; reflexivity]].
    + intros nm' p Hp. rewrite find_app_first, Hp. reflexivity.
    + intros pid p Hp. rewrite find_app_first, Hp. reflexivity.
Qed.

(** ** What every sequence of calls keeps *)

(** [init_db_tables] case by case: a table with rows is left as it is. *)
Lemma init_db_tables_total (db : database) :
  exists db',
    init_db_tables db = Ok db'
    /\ sensor_data db' = sensor_data db
    /\ seq_sensor_data db' = seq_sensor_data db
    /\ (exists added, products db' = products db ++ added)
    /\ (exists added, rooms db' = rooms db ++ added)
    /\ (rooms db <> [] -> rooms db' = rooms db).
Proof.
  destruct db as [ps rs sd sp sr ss].
  destruct ps as [| p ps], rs as [| r rs];
    (eexists; split; [cbv -[Z.add]; reflexivity |]);
    (split; [reflexivity |]); (split; [reflexivity |]);
    (split; [| split]).
  all: try (exists []; cbn [products rooms]; rewrite app_nil_r; reflexivity).
  all: try (eexists; cbn [products rooms app]; reflexivity).
  all: cbn [rooms]; intros H; try reflexivity; exfalso; apply H; reflexivity.
Qed.

Lemma products_run_operation (db : database) (op : operation) :
  exists added, products (run_operation db op) = products db ++ added.
Proof.
  destruct op as [| nm mn mx hum shelf | rid t p | env self]; simpl.
  - destruct (init_db_tables_total db) as (db' & Hinit & _ & _ & Hps & _).
    rewrite Hinit. exact Hps.
  - unfold add_product, insert_product.
    destruct (select_product_by_name nm db).
    + exists []. symmetry. apply app_nil_r.
    + eexists. reflexivity.
  - exists []. rewrite app_nil_r.
    unfold update_room. destruct t, p; reflexivity.
  - exists []. rewrite app_nil_r. apply update_sensor_data_products.
Qed.

Lemma sensor_data_run_operation (db : database) (op : operation) :
  exists added, sensor_data (run_operation db op) = sensor_data db ++ added.
Proof.
  destruct op as [| nm mn mx hum shelf | rid t p | env self]; simpl.
  - destruct (init_db_tables_total db) as (db' & Hinit & Hsd & _).
    rewrite Hinit. exists []. rewrite app_nil_r. exact Hsd.
  - exists []. rewrite app_nil_r.
    unfold add_product, insert_product.
    destruct (select_product_by_name nm db); reflexivity.
  - exists []. rewrite app_nil_r.
    unfold update_room. destruct t, p; reflexivity.
  - destruct (update_sensor_data_history env self db) as (added & H & _).
    exists added. exact H.
Qed.

(** No call ever deletes or rewrites a product or a sample: after any sequence
    of calls the catalog and the history are the old ones with rows added at
    the end. *)
Theorem run_append_only (ops : list operation) (db : database) :
  (exists added, products (run ops db) = products db ++ added)
  /\ (exists added, sensor_data (run ops db) = sensor_data db ++ added).
Proof.
  unfold run. revert db.
  induction ops as [| op ops IH]; intros db; simpl.
  - split; exists []; symmetry; apply app_nil_r.
  - destruct (IH (run_operation db op)) as [[ps Hps] [sd Hsd]].
    destruct (products_run_operation db op) as [ps0 Hps0].
    destruct (sensor_data_run_operation db op) as [sd0 Hsd0].
    split.
    + exists (ps0 ++ ps). rewrite Hps, Hps0. symmetry. apply app_assoc.
    + exists (sd0 ++ sd). rewrite Hsd, Hsd0. symmetry. apply app_assoc.
Qed.

Lemma catalog_ok_init_db (db db' : database) :
  catalog_ok db -> init_db_tables db = Ok db' -> catalog_ok db'.
Proof.
  destruct db as [ps rs sd sp sr ss].
  intros Hok Hinit.
  destruct ps as [| p ps], rs as [| r rs];
    cbv -[Z.add] in Hinit; injection Hinit as <-;
    try exact Hok.
  all: unfold catalog_ok; cbn [products seq_products map Products.name
                                 Products.id];
    (split; [| split]).
  all: try (repeat constructor; simpl; intuition discriminate).
  all: try (repeat constructor; simpl; intuition lia).
  all: repeat constructor; lia.
Qed.

Lemma catalog_ok_run_operation (db : database) (op : operation) :
  catalog_ok db -> catalog_ok (run_operation db op).
Proof.
  intros Hok.
  destruct op as [| nm mn mx hum shelf | rid t p | env self]; simpl.
  - destruct (init_db_tables db) as [db' |] eqn:Hinit; [| exact Hok].
    exact (catalog_ok_init_db db db' Hok Hinit).
  - apply catalog_ok_add_product, Hok.
  - unfold update_room. destruct t, p; exact Hok.
  - unfold catalog_ok. rewrite update_sensor_data_products.
    unfold update_sensor_data.
    destruct (select_room_by_id (room_id self) db); exact Hok.
Qed.

(** After any sequence of calls on a database in which product names and
    product ids are pairwise distinct, they still are: a name or an id never
    resolves to two products. *)
Theorem run_keeps_catalog_ok (ops : list operation) (db : database) :
  catalog_ok db -> catalog_ok (run ops db).
Proof.
  unfold run. revert db.
  induction ops as [| op ops IH]; intros db Hok; simpl.
  - exact Hok.
  - apply IH, catalog_ok_run_operation, Hok.
Qed.

Lemma run_keeps_catalog_ok_witness :
  catalog_ok
    (run [AddProduct "Paneer" 2 6 75 10; AddProduct "Milk" 0 1 50 1; InitDb]
         seed_db).
Proof.
  exact (run_keeps_catalog_ok
           [AddProduct "Paneer" 2 6 75 10; AddProduct "Milk" 0 1 50 1; InitDb]
           seed_db catalog_ok_seed).
Defined.

Lemma map_update_rooms_where_id {B : Type} (g : Rooms.row -> B)
    (f : Rooms.row -> Rooms.row) (k : Z) (db : database) :
  (forall r, g (f r) = g r) ->
  map g (rooms (update_rooms_where_id f k db)) = map g (rooms db).
Proof.
  intros Hg. unfold update_rooms_where_id. simpl. rewrite map_map.
  apply map_ext. intros r. destruct (Rooms.id r =? k)%Z; [apply Hg | reflexivity].
Qed.

Lemma map_rooms_update_room {B : Type} (g : Rooms.row -> B)
    (rid : Z) (t : option Q) (p : option Z) (db : database) :
  (forall v r, g (Rooms.set_target_temp v r) = g r) ->
  (forall v r, g (Rooms.set_current_product_id v r) = g r) ->
  map g (rooms (update_room rid t p db)) = map g (rooms db).
Proof.
  intros Ht Hp. unfold update_room.
  destruct t as [t |], p as [p |];
    rewrite ?map_update_rooms_where_id by (intros r; apply Ht || apply Hp);
    reflexivity.
Qed.

Lemma map_rooms_update_sensor_data {B : Type} (g : Rooms.row -> B)
    (env : sensor_env) (self : RoomSensor) (db : database) :
  (forall a b c r, g (Rooms.set_reading a b c r) = g r) ->
  map g (rooms (snd (update_sensor_data env self db))) = map g (rooms db).
Proof.
  intros Hg. unfold update_sensor_data.
  destruct (select_room_by_id (room_id self) db) as [room |]; [| reflexivity].
  simpl snd.
  change (rooms (insert_sensor_data ?r ?t ?h ?n ?d)) with (rooms d).
  apply map_update_rooms_where_id. intros r. apply Hg.
Qed.

Lemma rooms_add_product
    (db : database) (nm : string) (mn mx hum : Q) (shelf : Z) :
  rooms (snd (add_product nm mn mx hum shelf db)) = rooms db
  /\ sensor_data (snd (add_product nm mn mx hum shelf db)) = sensor_data db
  /\ seq_sensor_data (snd (add_product nm mn mx hum shelf db))
     = seq_sensor_data db.
Proof.
  unfold add_product, insert_product.
  destruct (select_product_by_name nm db); repeat split.
Qed.

Lemma room_keys_run_operation (db : database) (op : operation) :
  rooms db <> [] -> room_keys (run_operation db op) = room_keys db.
Proof.
  intros Hne. unfold room_keys.
  destruct op as [| nm mn mx hum shelf | rid t p | env self]; simpl.
  - destruct (init_db_tables_total db) as (db' & Hinit & _ & _ & _ & _ & Hrooms).
    rewrite Hinit, (Hrooms Hne). reflexivity.
  - rewrite (proj1 (rooms_add_product db nm mn mx hum shelf)). reflexivity.
  - apply map_rooms_update_room; reflexivity.
  - apply map_rooms_update_sensor_data; reflexivity.
Qed.

(** Once the rooms are set up, no call creates, deletes or renames a room:
    after any sequence of calls the rooms are the same, by id and by name, in
    the same order. *)
Theorem run_keeps_rooms (ops : list operation) (db : database) :
  rooms db <> [] -> room_keys (run ops db) = room_keys db.
Proof.
  unfold run. revert db.
  induction ops as [| op ops IH]; intros db Hne; simpl; [reflexivity |].
  pose proof (room_keys_run_operation db op Hne) as Hop.
  rewrite IH; [exact Hop |].
  intros Hnil. apply Hne.
  unfold room_keys in Hop. rewrite Hnil in Hop. simpl in Hop.
  symmetry in Hop. apply map_eq_nil in Hop. exact Hop.
Qed.

Lemma run_keeps_rooms_witness :
  room_keys
    (run [UpdateSensorData half_env (mkSensor 2); UpdateRoom 3 (Some 1) None;
          InitDb]
         seed_db)
  = [(1%Z, "Room 1"%string); (2%Z, "Room 2"%string); (3%Z, "Freezer 1"%string)].
Proof.
  refine (run_keeps_rooms
            [UpdateSensorData half_env (mkSensor 2); UpdateRoom 3 (Some 1) None;
             InitDb]
            seed_db _).
  vm_compute. discriminate.
Defined.

(** ** History *)

Lemma increasing_upto_snoc (b : Z) (ids : list Z) :
  increasing_upto b ids -> increasing_upto (b + 1) (ids ++ [(b + 1)%Z]).
Proof.
  induction ids as [| k rest IH]; simpl.
  - intros _. split; [constructor | split; [lia | exact I]].
  - intros (Hlt & Hle & Hrest). split; [| split; [lia | exact (IH Hrest)]].
    apply Forall_app. split; [exact Hlt |].
    constructor; [lia | constructor].
Qed.

Lemma history_ok_rooms (db db' : database) :
  sensor_data db' = sensor_data db ->
  seq_sensor_data db' = seq_sensor_data db ->
  incl (map Rooms.id (rooms db)) (map Rooms.id (rooms db')) ->
  history_ok db -> history_ok db'.
Proof.
  intros Hsd Hseq Hincl [Hinc Hrefs]. unfold history_ok.
  rewrite Hsd, Hseq. split; [exact Hinc |].
  eapply Forall_impl; [| exact Hrefs]. intros s Hs. apply Hincl, Hs.
Qed.

Lemma history_ok_update_sensor_data
    (env : sensor_env) (self : RoomSensor) (db : database) :
  history_ok db -> history_ok (snd (update_sensor_data env self db)).
Proof.
  intros [Hinc Hrefs]. unfold history_ok.
  rewrite (map_rooms_update_sensor_data Rooms.id env self db)
    by reflexivity.
  unfold update_sensor_data.
  destruct (select_room_by_id (room_id self) db) as [room |] eqn:Hroom;
    [| split; assumption].
  simpl. rewrite map_app. simpl. split.
  - apply increasing_upto_snoc, Hinc.
  - apply Forall_app. split; [exact Hrefs |].
    constructor; [| constructor]. simpl.
    unfold select_room_by_id in Hroom.
    apply find_some in Hroom as [Hin Hid].
    apply Z.eqb_eq in Hid. rewrite <- Hid. apply in_map, Hin.
Qed.

Lemma history_ok_run_operation (db : database) (op : operation) :
  history_ok db -> history_ok (run_operation db op).
Proof.
  intros Hok.
  destruct op as [| nm mn mx hum shelf | rid t p | env self]; simpl.
  - destruct (init_db_tables_total db)
      as (db' & Hinit & Hsd & Hseq & _ & [added Hrooms] & _).
    rewrite Hinit. apply (history_ok_rooms db db' Hsd Hseq); [| exact Hok].
    rewrite Hrooms, map_app. apply incl_appl, incl_refl.
  - destruct (rooms_add_product db nm mn mx hum shelf) as (Hr & Hsd & Hseq).
    apply (history_ok_rooms db _ Hsd Hseq); [| exact Hok].
    rewrite Hr. apply incl_refl.
  - apply (history_ok_rooms db); [| | | exact Hok].
    + unfold update_room. destruct t, p; reflexivity.
    + unfold update_room. destruct t, p; reflexivity.
    + rewrite (map_rooms_update_room Rooms.id) by reflexivity.
      apply incl_refl.
  - apply history_ok_update_sensor_data, Hok.
Qed.

(** After any sequence of calls the ids of the samples still grow strictly
    along the history, so no two samples share an id, and every sample still
    belongs to a room that exists. *)
Theorem run_keeps_history_ok (ops : list operation) (db : database) :
  history_ok db -> history_ok (run ops db).
Proof.
  unfold run. revert db.
  induction ops as [| op ops IH]; intros db Hok; simpl.
  - exact Hok.
  - apply IH, history_ok_run_operation, Hok.
Qed.

Lemma run_keeps_history_ok_witness :
  history_ok
    (run [UpdateSensorData half_env (mkSensor 2);
          UpdateSensorData half_env (mkSensor 99);
          UpdateSensorData half_env (mkSensor 1)]
         seed_db).
Proof.
  refine (run_keeps_history_ok _ seed_db _).
  split; [exact I | constructor].
Defined.


(** ** Repeated sampling *)

Lemma count_succ (n : nat) :
  inject_Z (Z.of_nat (S n)) == inject_Z (Z.of_nat n) + 1.
Proof.
  rewrite Nat2Z.inj_succ. unfold Z.succ. rewrite inject_Z_plus. reflexivity.
Qed.

Lemma count_nonneg (n : nat) : 0 <= inject_Z (Z.of_nat n).
Proof. rewrite <- (Zle_Qle 0). apply Nat2Z.is_nonneg. Qed.

(** A value that moves by at most [d] and then by at most [n * d], while its
    magnitude stays below [M]. *)
Lemma drift_step (x y z n d M : Q) :
  0 <= n -> 0 <= d ->
  Qabs x + (n + 1) * d <= M ->
  (Qabs x <= M -> Qabs (y - x) <= d) ->
  (Qabs y + n * d <= M -> Qabs (z - y) <= n * d) ->
  Qabs (z - x) <= (n + 1) * d.
Proof.
  intros Hn Hd HM Hxy Hyz.
  assert (Hnd : 0 <= n * d) by (apply Qmult_le_0_compat; assumption).
  assert (Heq : (n + 1) * d == n * d + d) by ring.
  rewrite Heq in *. set (P := n * d) in *.
  pose proof (Qabs_nonneg x) as Hx0.
  assert (Hx : Qabs x <= Qabs x) by apply Qle_refl.
  apply Qabs_Qle_condition in Hx.
  assert (H1 : Qabs (y - x) <= d) by (apply Hxy; lra).
  apply Qabs_Qle_condition in H1.
  assert (Hy : Qabs y <= Qabs x + d) by (apply Qabs_Qle_condition; split; lra).
  assert (H2 : Qabs (z - y) <= P) by (apply Hyz; lra).
  apply Qabs_Qle_condition in H2.
  apply Qabs_Qle_condition. split; lra.
Qed.

(** After [n] samples of an existing room, each with draws of
    [random.random()], the room is still there with the same target and
    product, and the history holds exactly [n] more records.  As long as the
    temperature stays below [M] in magnitude, it is within
    [n * (0.2 + 2^-53 * (M + 1))] of what it was: 0.2 for each perturbation
    and the rounding of each sum; the humidity likewise, within
    [n * (1 + 2^-53 * (M + 2))]. *)
Theorem sample_many_drift
    (envs : list sensor_env) (self : RoomSensor) (db : database)
    (room : Rooms.row) :
  select_room_by_id (room_id self) db = Some room ->
  Forall (fun env => Py.is_random (rand_temp env)
                     /\ Py.is_random (rand_humidity env)) envs ->
  exists room',
    select_room_by_id (room_id self) (sample_many envs self db) = Some room'
    /\ (forall M : Q,
          0 <= M ->
          Qabs (Rooms.current_temp room)
          + inject_Z (Z.of_nat (List.length envs))
            * (0.2 + pow2 (-53) * (M + 1)) <= M ->
          Qabs (Rooms.current_temp room' - Rooms.current_temp room)
          <= inject_Z (Z.of_nat (List.length envs))
             * (0.2 + pow2 (-53) * (M + 1)))
    /\ (forall M : Q,
          0 <= M ->
          Qabs (Rooms.humidity room)
          + inject_Z (Z.of_nat (List.length envs))
            * (1 + pow2 (-53) * (M + 2)) <= M ->
          Qabs (Rooms.humidity room' - Rooms.humidity room)
          <= inject_Z (Z.of_nat (List.length envs))
             * (1 + pow2 (-53) * (M + 2)))
    /\ Rooms.target_temp room' = Rooms.target_temp room
    /\ Rooms.current_product_id room' = Rooms.current_product_id room
    /\ List.length (sensor_data (sample_many envs self db))
       = (List.length (sensor_data db) + List.length envs)%nat.
Proof.
  revert db room.
  induction envs as [| env envs IH]; intros db room Hroom Hdraws.
  - exists room. cbn [sample_many List.length]. split; [exact Hroom |].
    change (inject_Z (Z.of_nat 0)) with 0.
    split; [| split; [| split; [reflexivity | split; [reflexivity |]]]].
    + intros M _ _. apply Qabs_Qle_condition. split; lra.
    + intros M _ _. apply Qabs_Qle_condition. split; lra.
    + symmetry. apply Nat.add_0_r.
  - inversion Hdraws as [| e es [Ht Hh] Hrest]; subst.
    pose proof (update_sensor_data_found env self db room Hroom) as Hfound.
    cbv zeta in Hfound. destruct Hfound as (_ & Hrow & Hhist).
    destruct (new_temp_bounds (Rooms.current_temp room) (rand_temp env) Ht)
      as [_ Hstep_t].
    destruct (new_humidity_bounds (Rooms.humidity room) (rand_humidity env) Hh)
      as [_ Hstep_h].
    cbv zeta in Hstep_t, Hstep_h.
    remember (Float.add (Rooms.current_temp room)
                (Float.uniform (- Float.lit 0.2) (Float.lit 0.2)
                               (rand_temp env)))
      as new_temp eqn:Hnt.
    remember (Float.add (Rooms.humidity room)
                (Float.uniform_int (-1) 1 (rand_humidity env)))
      as new_humidity eqn:Hnh.
    clear Hnt Hnh.
    destruct (IH _ _ Hrow Hrest)
      as (room' & Hsel & Htemp & Hhum & Htgt & Hpid & Hlen).
    exists room'. cbn [sample_many]. split; [exact Hsel |].
    cbn [Rooms.set_reading Rooms.current_temp Rooms.humidity Rooms.target_temp
         Rooms.current_product_id] in Htemp, Hhum, Htgt, Hpid.
    destruct tiny_powers as [HP _].
    split; [| split; [| split; [exact Htgt | split; [exact Hpid |]]]].
    + intros M HM0 HM. cbn [List.length] in *. rewrite count_succ in *.
      apply (drift_step _ new_temp _ _ _ M);
        [apply count_nonneg | rewrite HP; lra | exact HM | | apply Htemp, HM0].
      intros Hx. eapply Qle_trans; [exact Hstep_t |]. rewrite HP. lra.
    + intros M HM0 HM. cbn [List.length] in *. rewrite count_succ in *.
      apply (drift_step _ new_humidity _ _ _ M);
        [apply count_nonneg | rewrite HP; lra | exact HM | | apply Hhum, HM0].
      intros Hx. eapply Qle_trans; [exact Hstep_h |]. rewrite HP. lra.
    + rewrite Hlen, Hhist, length_app. simpl. lia.
Qed.

Lemma sample_many_drift_witness :
  exists room',
    select_room_by_id 1 (sample_many [half_env; zero_env] (mkSensor 1) seed_db)
    = Some room'
    /\ Qabs (Rooms.current_temp room' - 4.0)
       <= inject_Z (Z.of_nat 2) * (0.2 + pow2 (-53) * (100 + 1))
    /\ Qabs (Rooms.humidity room' - 70.0)
       <= inject_Z (Z.of_nat 2) * (1 + pow2 (-53) * (100 + 2))
    /\ Rooms.target_temp room' = 4.0
    /\ Rooms.current_product_id room' = None
    /\ List.length
         (sensor_data (sample_many [half_env; zero_env] (mkSensor 1) seed_db))
       = (0 + 2)%nat.
Proof.
  destruct (sample_many_drift [half_env; zero_env] (mkSensor 1) seed_db
              (Rooms.mk 1 "Room 1" 4.0 4.0 70.0 None None) eq_refl)
    as (room' & Hsel & Htemp & Hhum & Htgt & Hpid & Hlen).
  - apply Forall_cons; [exact half_is_random |].
    apply Forall_cons; [exact (conj zero_is_random zero_is_random) |].
    apply Forall_nil.
  - exists room'. split; [exact Hsel |].
    split; [apply (Htemp 100); vm_compute; discriminate |].
    split; [apply (Hhum 100); vm_compute; discriminate |].
    split; [exact Htgt | split; [exact Hpid | exact Hlen]].
Defined.

(** ** Alerts, again *)

Ltac reflect_comparisons :=
  unfold Py.abs in *;
  repeat match goal with
         | H : Py.gt _ _ = true |- _ => apply Py_gt_iff in H
         | H : Py.gt _ _ = false |- _ => apply Py_gt_false_iff in H
         | H : Py.lt _ _ = true |- _ => apply Py_lt_iff in H
         | H : Py.lt _ _ = false |- _ => apply Py_lt_false_iff in H
         end.

Lemma collect_alerts_full_row (ct ch tt mn mx ih : Q) (ovr : bool) :
  collect_alerts (Some (ct, ch, tt, Some mn, Some mx, Some ih)) ovr
  = (if Py.lt ct mn then [TemperatureTooLow ct mn] else [])
    ++ (if Py.gt ct mx then [TemperatureTooHigh ct mx] else [])
    ++ (if Py.gt (Py.abs (ch - ih)) 10 then [HumidityDeviation ch ih] else [])
    ++ (if ovr then [ManualOverrideActive] else []).
Proof. apply collect_alerts_rules. Qed.



(** The alert list never has more than four entries.  When the range of the
    product is well formed, the two temperature alerts exclude each other and
    the list has at most three entries. *)
Theorem check_for_alerts_at_most
    (db : database) (st : session_state) (ct ch tt mn mx ih : Q) :
  select_room_data (current_room_id st) db
  = Some (ct, ch, tt, Some mn, Some mx, Some ih) ->
  (List.length (alerts (check_for_alerts db st)) <= 4)%nat
  /\ (mn <= mx ->
      (List.length (alerts (check_for_alerts db st)) <= 3)%nat
      /\ ~ (In (TemperatureTooLow ct mn) (alerts (check_for_alerts db st))
            /\ In (TemperatureTooHigh ct mx)
                  (alerts (check_for_alerts db st)))).
Proof.
  intros Hrow.
  rewrite check_for_alerts_alerts, Hrow, collect_alerts_full_row.
  destruct (Py.lt ct mn) eqn:Hlow, (Py.gt ct mx) eqn:Hhigh,
    (Py.gt (Py.abs (ch - ih)) 10) eqn:Hhum, (manual_override st);
    reflect_comparisons; simpl;
    (split; [lia |]); intros Hrange;
    try (exfalso; lra);
    (split; [lia |]); intros [H1 H2];
    repeat match goal with
           | H : _ \/ _ |- _ => destruct H as [H | H]
           | H : _ = _ |- _ => discriminate H
           | H : False |- _ => exact H
           end.
Qed.

Lemma check_for_alerts_at_most_witness :
  (List.length (alerts (check_for_alerts curd_room_db override_session)) <= 3)%nat.
Proof.
  refine (proj1 (proj2 (check_for_alerts_at_most curd_room_db override_session
                          1 60 4 2 4 75 eq_refl) _)).
  vm_compute. discriminate.
Defined.

(** With a range stored upside down ([max_temp] below [min_temp]) a
    temperature strictly between the two bounds raises both temperature
    alerts, the low one first. *)
Theorem check_for_alerts_inverted_range
    (db : database) (st : session_state) (ct ch tt mn mx ih : Q) :
  select_room_data (current_room_id st) db
  = Some (ct, ch, tt, Some mn, Some mx, Some ih) ->
  mx < ct -> ct < mn ->
  exists rest,
    alerts (check_for_alerts db st)
    = TemperatureTooLow ct mn :: TemperatureTooHigh ct mx :: rest.
Proof.
  intros Hrow Hhigh Hlow.
  rewrite check_for_alerts_alerts, Hrow, collect_alerts_full_row.
  apply Py_lt_iff in Hlow. apply Py_gt_iff in Hhigh.
  rewrite Hlow, Hhigh. simpl. eexists. reflexivity.
Qed.

(** A room at 5 degrees that stores a product entered with the range 6 to 4. *)
Lemma check_for_alerts_inverted_range_witness :
  exists rest,
    alerts (check_for_alerts
              (mkDB [Products.mk 1 "Paneer" 6 4 70 5]
                    [Rooms.mk 1 "Room 1" 5 5 70 (Some 1%Z) None] [] 1 1 0)
              plain_session)
    = TemperatureTooLow 5 6 :: TemperatureTooHigh 5 4 :: rest.
Proof.
  refine (check_for_alerts_inverted_range
            (mkDB [Products.mk 1 "Paneer" 6 4 70 5]
                  [Rooms.mk 1 "Room 1" 5 5 70 (Some 1%Z) None] [] 1 1 0)
            plain_session 5 70 5 6 4 70 eq_refl _ _); reflexivity.
Defined.

(** One refresh of the dashboard: a sample, then the alert evaluation.  When
    the room was at least the float 0.2 inside the range of its product and
    at most 9 points away from the ideal humidity, the bounds of the range and
    the ideal humidity minus and plus 10 being binary64 numbers, the fresh
    reading raises no alert: the list holds at most the override notice. *)
Theorem sample_within_margin_no_alert
    (env : sensor_env) (self : RoomSensor) (db : database)
    (st : session_state) (room : Rooms.row) (pid : Z) (p : Products.row) :
  room_id self = current_room_id st ->
  select_room_by_id (room_id self) db = Some room ->
  Rooms.current_product_id room = Some pid ->
  select_product_by_id pid db = Some p ->
  Py.is_random (rand_temp env) ->
  Py.is_random (rand_humidity env) ->
  representable (Products.min_temp p) ->
  representable (Products.max_temp p) ->
  representable (Products.humidity p - 10) ->
  representable (Products.humidity p + 10) ->
  Products.min_temp p + Float.lit 0.2 <= Rooms.current_temp room ->
  Rooms.current_temp room + Float.lit 0.2 <= Products.max_temp p ->
  Qabs (Rooms.humidity room - Products.humidity p) <= 9 ->
  alerts (check_for_alerts (snd (update_sensor_data env self db)) st)
  = if manual_override st then [ManualOverrideActive] else [].
Proof.
  intros Hid Hroom Hpid Hp Ht Hh Rmin Rmax Rlo Rhi Hlo Hhi Hhum.
  pose proof (update_sensor_data_found env self db room Hroom) as Hfound.
  cbv zeta in Hfound. destruct Hfound as (_ & Hrow & _).
  destruct (new_temp_bounds (Rooms.current_temp room) (rand_temp env) Ht)
    as [[Ht1 Ht2] _].
  destruct (new_humidity_bounds (Rooms.humidity room) (rand_humidity env) Hh)
    as [[Hh1 Hh2] _].
  apply representable_iff in Rmin, Rmax, Rlo, Rhi.
  apply Qabs_Qle_condition in Hhum.
  assert (Hmin : Products.min_temp p
                 <= Float.sub (Rooms.current_temp room) (Float.lit 0.2)).
  { rewrite <- Rmin. apply binary64_round_monotone. lra. }
  assert (Hmax : Float.add (Rooms.current_temp room) (Float.lit 0.2)
                 <= Products.max_temp p).
  { rewrite <- Rmax. apply binary64_round_monotone. lra. }
  assert (Hhlo : Products.humidity p - 10 <= Float.sub (Rooms.humidity room) 1).
  { rewrite <- Rlo. apply binary64_round_monotone. lra. }
  assert (Hhhi : Float.add (Rooms.humidity room) 1 <= Products.humidity p + 10).
  { rewrite <- Rhi. apply binary64_round_monotone. lra. }
  remember (Float.add (Rooms.current_temp room)
              (Float.uniform (- Float.lit 0.2) (Float.lit 0.2) (rand_temp env)))
    as new_temp eqn:Hnt.
  remember (Float.add (Rooms.humidity room)
              (Float.uniform_int (-1) 1 (rand_humidity env)))
    as new_humidity eqn:Hnh.
  clear Hnt Hnh.
  rewrite check_for_alerts_alerts. unfold select_room_data.
  rewrite <- Hid, Hrow. simpl. rewrite Hpid.
  unfold select_product_by_id in *.
  rewrite (update_sensor_data_products env self db), Hp. simpl.
  rewrite collect_alerts_full_row.
  assert (Hlow : Py.lt new_temp (Products.min_temp p) = false).
  { apply Py_lt_false_iff. lra. }
  assert (Hhigh : Py.gt new_temp (Products.max_temp p) = false).
  { apply Py_gt_false_iff. lra. }
  assert (Hdev : Py.gt (Py.abs (new_humidity - Products.humidity p)) 10
                 = false).
  { apply Py_gt_false_iff. unfold Py.abs. apply Qabs_Qle_condition.
    split; lra. }
  rewrite Hlow, Hhigh, Hdev. reflexivity.
Qed.

Lemma sample_within_margin_no_alert_witness :
  alerts (check_for_alerts
            (snd (update_sensor_data half_env (mkSensor 1)
                    (mkDB (products seed_db)
                          [Rooms.mk 1 "Room 1" 3 3 70 (Some 1%Z) None]
                          [] 5 1 0)))
            plain_session)
  = [].
Proof.
  refine (sample_within_margin_no_alert half_env (mkSensor 1)
            (mkDB (products seed_db)
                  [Rooms.mk 1 "Room 1" 3 3 70 (Some 1%Z) None] [] 5 1 0)
            plain_session
            (Rooms.mk 1 "Room 1" 3 3 70 (Some 1%Z) None) 1 milk
            eq_refl eq_refl eq_refl eq_refl
            (proj1 half_is_random) (proj2 half_is_random) _ _ _ _ _ _ _);
    try (apply representable_iff; vm_compute; reflexivity);
    vm_compute; discriminate.
Defined.

(** The margin is to be taken with the float 0.2: a room that holds the float
    0.2, which is more than [2^-80 + 0.2], and a product kept above [2^-80]
    get a low-temperature alert when [random.random()] returns 0, for the
    reading is then 0. *)
Lemma sample_at_decimal_margin_alerts :
  let db :=
    mkDB [Products.mk 1 "Whey" (pow2 (-80)) 1 70 5]
         [Rooms.mk 1 "Room 1" (Float.lit 0.2) 1 70 (Some 1%Z) None] [] 1 1 0 in
  pow2 (-80) + 0.2 <= Float.lit 0.2
  /\ Float.lit 0.2 + 0.2 <= 1
  /\ alerts (check_for_alerts
               (snd (update_sensor_data zero_env (mkSensor 1) db))
               plain_session)
     = [TemperatureTooLow 0 (pow2 (-80))].
Proof.
  split; [vm_compute; discriminate |].
  split; [vm_compute; discriminate |].
  vm_compute. reflexivity.
Qed.

(** ** Recommendation, again *)

Lemma half_eq (x : Q) : x / 2 == x * (1 # 2).
Proof. reflexivity. Qed.

Lemma recommend_cases (product : Products.row) (external_temp : Q) :
  (30 < external_temp
   /\ recommend_temperature (Some product) external_temp
      = Some (Qmax (Products.min_temp product)
                   ((Products.min_temp product + Products.max_temp product) / 2
                    - 1)))
  \/ (10 <= external_temp <= 30
      /\ recommend_temperature (Some product) external_temp
         = Some ((Products.min_temp product + Products.max_temp product) / 2))
  \/ (external_temp < 10
      /\ recommend_temperature (Some product) external_temp
         = Some (Qmin (Products.max_temp product)
                      ((Products.min_temp product + Products.max_temp product) / 2
                       + 1))).
Proof.
  destruct (Qlt_le_dec 30 external_temp) as [Hhot | Hnothot].
  - left. split; [exact Hhot | apply recommend_hot, Hhot].
  - destruct (Qlt_le_dec external_temp 10) as [Hcold | Hnotcold].
    + right. right. split; [exact Hcold | apply recommend_cold, Hcold].
    + right. left. split; [split; assumption |].
      apply recommend_mild; assumption.
Qed.

Lemma hot_le_mid_le_cold (lo hi : Q) :
  lo <= hi ->
  Qmax lo ((lo + hi) / 2 - 1) <= (lo + hi) / 2
  /\ (lo + hi) / 2 <= Qmin hi ((lo + hi) / 2 + 1).
Proof.
  intros Hrange. split.
  - apply Q.max_lub; rewrite half_eq; lra.
  - apply Q.min_glb; rewrite half_eq; lra.
Qed.

(** For a well-formed range, a higher external temperature never gives a
    higher recommendation. *)
Theorem recommend_temperature_antitone
    (product : Products.row) (e1 e2 : Q) :
  Products.min_temp product <= Products.max_temp product ->
  e1 <= e2 ->
  exists r1 r2,
    recommend_temperature (Some product) e1 = Some r1
    /\ recommend_temperature (Some product) e2 = Some r2
    /\ r2 <= r1.
Proof.
  intros Hrange Hle.
  destruct (hot_le_mid_le_cold _ _ Hrange) as [Hhm Hmc].
  destruct (recommend_cases product e1) as [[H1 ->] | [[H1 ->] | [H1 ->]]];
    destruct (recommend_cases product e2) as [[H2 ->] | [[H2 ->] | [H2 ->]]];
    try (exfalso; lra);
    eexists _, _; (split; [reflexivity |]); (split; [reflexivity |]);
    try apply Qle_refl; try assumption.
  eapply Qle_trans; eassumption.
Qed.

Lemma recommend_temperature_antitone_witness :
  exists r1 r2,
    recommend_temperature (Some milk) 5 = Some r1
    /\ recommend_temperature (Some milk) 35 = Some r2
    /\ r2 <= r1.
Proof.
  refine (recommend_temperature_antitone milk 5 35 _ _);
    vm_compute; discriminate.
Defined.


(** ** Weather feed *)



(** ** The recommendation on the pages *)

Lemma find_unique {A K : Type} (key : A -> K) (eqb : K -> K -> bool)
    (l : list A) (p : A) :
  (forall a b, eqb a b = true <-> a = b) ->
  NoDup (map key l) -> In p l ->
  find (fun q => eqb (key q) (key p)) l = Some p.
Proof.
  intros Heqb. induction l as [| q l IH]; simpl; [intros _ [] |].
  intros Hnd Hin. inversion Hnd as [| k ks Hnotin Hnd']; subst.
  destruct (eqb (key q) (key p)) eqn:Hq.
  - apply Heqb in Hq. destruct Hin as [-> | Hin]; [reflexivity |].
    exfalso. apply Hnotin. rewrite Hq. apply in_map, Hin.
  - destruct Hin as [-> | Hin]; [| exact (IH Hnd' Hin)].
    assert (Hrefl : eqb (key p) (key p) = true) by (apply Heqb; reflexivity).
    rewrite Hrefl in Hq. discriminate Hq.
Qed.

Lemma get_product_by_name_unique (db : database) (p : Products.row) :
  catalog_ok db -> In p (products db) ->
  get_product_by_name (Products.name p) db = Some p.
Proof.
  intros (Hnames & _ & _) Hin.
  apply (find_unique Products.name String.eqb);
    [exact String.eqb_eq | exact Hnames | exact Hin].
Qed.

Lemma select_product_by_id_unique (db : database) (p : Products.row) :
  catalog_ok db -> In p (products db) ->
  select_product_by_id (Products.id p) db = Some p.
Proof.
  intros (_ & Hids & _) Hin.
  apply (find_unique Products.id Z.eqb);
    [exact Z.eqb_eq | exact Hids | exact Hin].
Qed.

Lemma select_product_by_id_In (pid : Z) (db : database) (p : Products.row) :
  select_product_by_id pid db = Some p -> In p (products db).
Proof. intros H. apply find_some in H. apply H. Qed.

Lemma recommend_only_bounds (p : Products.row) (e : Q) :
  recommend_temperature
    (Some (Products.mk 0 "" (Products.min_temp p) (Products.max_temp p) 0 0)) e
  = recommend_temperature (Some p) e.
Proof. reflexivity. Qed.

Lemma float_or_nonzero (x d : Q) : ~ x == 0 -> float_or (Some x) d = x.
Proof.
  intros Hx. unfold float_or, bool_of_float.
  destruct (Qeq_bool x 0) eqn:H; [| reflexivity].
  apply Qeq_bool_iff in H. contradiction.
Qed.

Lemma float_or_zero (x d : Q) : x == 0 -> float_or (Some x) d = d.
Proof.
  intros Hx. unfold float_or, bool_of_float.
  apply Qeq_bool_iff in Hx. rewrite Hx. reflexivity.
Qed.

Section Pages.

Variable db : database.
Variable st : session_state.
Variable w : weather.
Variable room : Rooms.row.
Variable pid : Z.
Variable p : Products.row.

Hypothesis Hroom : select_room_by_id (current_room_id st) db = Some room.
Hypothesis Hpid : Rooms.current_product_id room = Some pid.
Hypothesis Hp : select_product_by_id pid db = Some p.
Hypothesis Hname : Products.name p <> ""%string.

Lemma bool_of_str_name : bool_of_str (Products.name p) = true.
Proof.
  unfold bool_of_str. destruct (String.eqb_spec (Products.name p) "");
    [contradiction | reflexivity].
Qed.

(** What the dashboard displays for a room that stores [p]. *)
Lemma dashboard_recommendation_resolved :
  catalog_ok db ->
  dashboard_recommendation db st w
  = match recommend_temperature (Some p) (w_temperature w) with
    | Some r => if bool_of_float r then Some r else None
    | None => None
    end.
Proof.
  intros Hok. unfold dashboard_recommendation, select_room_info.
  rewrite Hroom, Hpid, Hp. simpl option_map. cbv iota beta.
  rewrite bool_of_str_name.
  rewrite (get_product_by_name_unique db p Hok
             (select_product_by_id_In pid db p Hp)).
  reflexivity.
Qed.

(** What the control page offers for a room that stores [p]. *)
Lemma control_recommendation_resolved :
  manual_override st = false ->
  control_recommendation db st w
  = match recommend_temperature
            (Some (Products.mk 0 ""
                     (float_or (Some (Products.min_temp p)) (-30.0))
                     (float_or (Some (Products.max_temp p)) 30.0) 0 0))
            (w_temperature w) with
    | Some r => if bool_of_float r then Some r else None
    | None => None
    end.
Proof.
  intros Hoff. unfold control_recommendation, select_control_room_data.
  rewrite Hroom, Hpid, Hp, Hoff. simpl option_map. cbv iota beta.
  rewrite bool_of_str_name. reflexivity.
Qed.

End Pages.


Lemma bool_of_float_false (r : Q) : r == 0 -> bool_of_float r = false.
Proof.
  intros Hr. unfold bool_of_float.
  apply Qeq_bool_iff in Hr. rewrite Hr. reflexivity.
Qed.

Lemma select_room_apply (db : database) (rid : Z) (v : Q) (room : Rooms.row) :
  select_room_by_id rid db = Some room ->
  select_room_by_id rid (update_room rid (Some v) None db)
  = Some (Rooms.set_target_temp v room).
Proof.
  intros Hroom. rewrite select_room_update_room, Hroom. reflexivity.
Qed.

Lemma catalog_ok_update_room
    (db : database) (rid : Z) (t : option Q) (p : option Z) :
  catalog_ok db -> catalog_ok (update_room rid t p db).
Proof.
  intros Hok. unfold update_room. destruct t, p; exact Hok.
Qed.

(** For a room that stores a product with a name and with both bounds
    different from 0, the control page (override off) offers exactly the
    recommendation that the dashboard displays. *)
Theorem pages_agree_on_recommendation
    (db : database) (st : session_state) (w : weather)
    (room : Rooms.row) (pid : Z) (p : Products.row) :
  catalog_ok db ->
  select_room_by_id (current_room_id st) db = Some room ->
  Rooms.current_product_id room = Some pid ->
  select_product_by_id pid db = Some p ->
  Products.name p <> ""%string ->
  manual_override st = false ->
  ~ Products.min_temp p == 0 ->
  ~ Products.max_temp p == 0 ->
  control_recommendation db st w = dashboard_recommendation db st w.
Proof.
  intros Hok Hroom Hpid Hp Hname Hoff Hmin Hmax.
  rewrite (dashboard_recommendation_resolved db st w room pid p
             Hroom Hpid Hp Hname Hok).
  rewrite (control_recommendation_resolved db st w room pid p
             Hroom Hpid Hp Hname Hoff).
  rewrite (float_or_nonzero _ _ Hmin), (float_or_nonzero _ _ Hmax).
  rewrite recommend_only_bounds. reflexivity.
Qed.

(** Room 1 of the default set-up, storing Milk. *)
Lemma pages_agree_on_recommendation_witness :
  control_recommendation (update_room 1 None (Some 1%Z) seed_db) plain_session
    (mkWeather 35 50 "Sunny" "")
  = dashboard_recommendation (update_room 1 None (Some 1%Z) seed_db)
      plain_session (mkWeather 35 50 "Sunny" "").
Proof.
  refine (pages_agree_on_recommendation
            (update_room 1 None (Some 1%Z) seed_db) plain_session
            (mkWeather 35 50 "Sunny" "")
            (Rooms.mk 1 "Room 1" 4.0 4.0 70.0 (Some 1%Z) None) 1 milk
            _ eq_refl eq_refl eq_refl _ eq_refl _ _).
  - exact (catalog_ok_update_room seed_db 1 None (Some 1%Z) catalog_ok_seed).
  - discriminate.
  - vm_compute. discriminate.
  - vm_compute. discriminate.
Defined.



(** For a product with a name, a well-formed range and both bounds different
    from 0, whatever the control page offers lies within the range of the
    product, and the button stores exactly that value as the target of the
    room; when the page offers nothing, the button changes nothing. *)
Theorem apply_recommended_within_range
    (db : database) (st : session_state) (w : weather)
    (room : Rooms.row) (pid : Z) (p : Products.row) :
  select_room_by_id (current_room_id st) db = Some room ->
  Rooms.current_product_id room = Some pid ->
  select_product_by_id pid db = Some p ->
  Products.name p <> ""%string ->
  manual_override st = false ->
  ~ Products.min_temp p == 0 ->
  ~ Products.max_temp p == 0 ->
  Products.min_temp p <= Products.max_temp p ->
  (forall r,
     control_recommendation db st w = Some r ->
     Products.min_temp p <= r /\ r <= Products.max_temp p
     /\ select_room_by_id (current_room_id st)
          (apply_recommended_temperature db st w)
        = Some (Rooms.set_target_temp r room))
  /\ (control_recommendation db st w = None ->
      apply_recommended_temperature db st w = db).
Proof.
  intros Hroom Hpid Hp Hname Hoff Hmin Hmax Hrange.
  split.
  - intros r Hr. unfold apply_recommended_temperature. rewrite Hr.
    rewrite (select_room_apply _ _ _ _ Hroom).
    rewrite (control_recommendation_resolved db st w room pid p
               Hroom Hpid Hp Hname Hoff) in Hr.
    rewrite (float_or_nonzero _ _ Hmin), (float_or_nonzero _ _ Hmax) in Hr.
    rewrite recommend_only_bounds in Hr.
    destruct (recommend_within_range p (w_temperature w) Hrange)
      as (r0 & Hr0 & Hlo & Hhi).
    rewrite Hr0 in Hr. destruct (bool_of_float r0); [| discriminate Hr].
    injection Hr as <-. repeat split; assumption.
  - intros Hnone. unfold apply_recommended_temperature. rewrite Hnone.
    reflexivity.
Qed.

Lemma apply_recommended_within_range_witness :
  select_room_by_id 1
    (apply_recommended_temperature (update_room 1 None (Some 1%Z) seed_db)
       plain_session (mkWeather 35 50 "Sunny" ""))
  = Some (Rooms.set_target_temp 2
            (Rooms.mk 1 "Room 1" 4.0 4.0 70.0 (Some 1%Z) None)).
Proof.
  refine (proj2 (proj2 (proj1 (apply_recommended_within_range
            (update_room 1 None (Some 1%Z) seed_db) plain_session
            (mkWeather 35 50 "Sunny" "")
            (Rooms.mk 1 "Room 1" 4.0 4.0 70.0 (Some 1%Z) None) 1 milk
            eq_refl eq_refl eq_refl _ eq_refl _ _ _) 2 eq_refl)));
    try discriminate; vm_compute; discriminate.
Defined.

(** A recommendation of 0 degrees is never shown.  In mild weather, for a
    product whose range is symmetric about 0, the recommendation computed is
    0 and neither the dashboard nor the control page shows it. *)
Theorem zero_recommendation_hidden
    (db : database) (st : session_state) (w : weather)
    (room : Rooms.row) (pid : Z) (p : Products.row) :
  catalog_ok db ->
  select_room_by_id (current_room_id st) db = Some room ->
  Rooms.current_product_id room = Some pid ->
  select_product_by_id pid db = Some p ->
  Products.name p <> ""%string ->
  manual_override st = false ->
  Products.min_temp p + Products.max_temp p == 0 ->
  10 <= w_temperature w -> w_temperature w <= 30 ->
  (exists r, recommend_temperature (Some p) (w_temperature w) = Some r
             /\ r == 0)
  /\ dashboard_recommendation db st w = None
  /\ control_recommendation db st w = None.
Proof.
  intros Hok Hroom Hpid Hp Hname Hoff Hsum H10 H30.
  assert (Hmid : (Products.min_temp p + Products.max_temp p) / 2 == 0)
    by (rewrite half_eq; lra).
  split; [| split].
  - eexists. split; [apply recommend_mild; assumption | exact Hmid].
  - rewrite (dashboard_recommendation_resolved db st w room pid p
               Hroom Hpid Hp Hname Hok).
    rewrite (recommend_mild _ _ H10 H30).
    rewrite (bool_of_float_false _ Hmid). reflexivity.
  - rewrite (control_recommendation_resolved db st w room pid p
               Hroom Hpid Hp Hname Hoff).
    destruct (Qeq_dec (Products.min_temp p) 0) as [Hz | Hnz].
    + assert (Hz' : Products.max_temp p == 0) by lra.
      rewrite (float_or_zero _ _ Hz), (float_or_zero _ _ Hz').
      rewrite (recommend_mild _ _ H10 H30). reflexivity.
    + assert (Hnz' : ~ Products.max_temp p == 0) by lra.
      rewrite (float_or_nonzero _ _ Hnz), (float_or_nonzero _ _ Hnz').
      rewrite recommend_only_bounds, (recommend_mild _ _ H10 H30).
      rewrite (bool_of_float_false _ Hmid). reflexivity.
Qed.

Lemma zero_recommendation_hidden_witness :
  dashboard_recommendation
    (mkDB [Products.mk 1 "Kefir" (-2) 2 70 5]
          [Rooms.mk 1 "Room 1" 1 1 70 (Some 1%Z) None] [] 1 1 0)
    plain_session (mkWeather 20 50 "Cloudy" "")
  = None.
Proof.
  refine (proj1 (proj2 (zero_recommendation_hidden
            (mkDB [Products.mk 1 "Kefir" (-2) 2 70 5]
                  [Rooms.mk 1 "Room 1" 1 1 70 (Some 1%Z) None] [] 1 1 0)
            plain_session (mkWeather 20 50 "Cloudy" "")
            (Rooms.mk 1 "Room 1" 1 1 70 (Some 1%Z) None) 1
            (Products.mk 1 "Kefir" (-2) 2 70 5)
            _ eq_refl eq_refl eq_refl _ eq_refl _ _ _)));
    try discriminate; try reflexivity.
  unfold catalog_ok. simpl.
  repeat split; repeat constructor; simpl; try tauto. discriminate.
Defined.

Lemma bool_of_str_true (s : string) : s <> ""%string -> bool_of_str s = true.
Proof.
  intros Hs. unfold bool_of_str.
  destruct (String.eqb_spec s ""); [contradiction | reflexivity].
Qed.

Lemma bool_of_int_true (n : Z) : n <> 0%Z -> bool_of_int n = true.
Proof.
  intros Hn. unfold bool_of_int.
  destruct (Z.eqb_spec n 0); [contradiction | reflexivity].
Qed.

Lemma select_room_data_after_assign
    (db : database) (rid : Z) (room : Rooms.row) (p : Products.row) :
  catalog_ok db ->
  select_room_by_id rid db = Some room ->
  In p (products db) ->
  select_room_data rid (update_room rid None (Some (Products.id p)) db)
  = Some (Rooms.current_temp room, Rooms.humidity room, Rooms.target_temp room,
          Some (Products.min_temp p), Some (Products.max_temp p),
          Some (Products.humidity p)).
Proof.
  intros Hok Hroom Hin. unfold select_room_data.
  rewrite select_room_update_room, Hroom.
  cbn [option_map Rooms.current_product_id Rooms.current_temp Rooms.humidity
       Rooms.target_temp].
  change (select_product_by_id (Products.id p)
            (update_room rid None (Some (Products.id p)) db))
    with (select_product_by_id (Products.id p) db).
  rewrite (select_product_by_id_unique db p Hok Hin). reflexivity.
Qed.

(** Choosing a product on the control page: when the name is that of a
    product of the catalog (not empty, id not 0), the alert evaluation of the
    room then works with the bounds and the ideal humidity of that product.
    Choosing the empty entry changes nothing: it does not clear the product
    of the room. *)
Theorem select_product_then_alert_data
    (db : database) (st : session_state) (room : Rooms.row)
    (p : Products.row) :
  catalog_ok db ->
  select_room_by_id (current_room_id st) db = Some room ->
  In p (products db) ->
  Products.name p <> ""%string ->
  Products.id p <> 0%Z ->
  select_room_data (current_room_id st)
    (select_product (Products.name p) db st)
  = Some (Rooms.current_temp room, Rooms.humidity room, Rooms.target_temp room,
          Some (Products.min_temp p), Some (Products.max_temp p),
          Some (Products.humidity p))
  /\ select_product "" db st = db.
Proof.
  intros Hok Hroom Hin Hname Hid.
  split; [| unfold select_product; reflexivity].
  pose proof (get_product_by_name_unique db p Hok Hin) as Hfind.
  unfold get_product_by_name, select_product_by_name in Hfind.
  assert (Hassign :
            (if bool_of_int (Products.id p)
             then update_room (current_room_id st) None
                    (Some (Products.id p)) db
             else db)
            = update_room (current_room_id st) None (Some (Products.id p)) db)
    by (rewrite (bool_of_int_true _ Hid); reflexivity).
  unfold select_product, select_control_room_data, get_all_products.
  rewrite Hroom, Hfind, (bool_of_str_true _ Hname). simpl option_map.
  cbv iota beta. rewrite Hassign.
  destruct (match Rooms.current_product_id room with
            | Some pid => select_product_by_id pid db
            | None => None
            end) as [q |] eqn:Hq; simpl.
  - destruct (bool_of_str (Products.name q)).
    + destruct (String.eqb_spec (Products.name p) (Products.name q))
        as [Heq | Hne]; simpl.
      * assert (Hqp : q = p).
        { destruct (Rooms.current_product_id room) as [pid |];
            [| discriminate Hq].
          pose proof (get_product_by_name_unique db q Hok
                        (select_product_by_id_In pid db q Hq)) as Hq'.
          rewrite <- Heq in Hq'.
          rewrite (get_product_by_name_unique db p Hok Hin) in Hq'.
          injection Hq' as ->. reflexivity. }
        subst q. unfold select_room_data. rewrite Hroom, Hq. reflexivity.
      * apply select_room_data_after_assign; assumption.
    + apply select_room_data_after_assign; assumption.
  - apply select_room_data_after_assign; assumption.
Qed.

Lemma select_product_then_alert_data_witness :
  select_room_data 1 (select_product "Milk" seed_db plain_session)
  = Some (4.0, 70.0, 4.0, Some 2, Some 4, Some 70).
Proof.
  refine (proj1 (select_product_then_alert_data seed_db plain_session
                   (Rooms.mk 1 "Room 1" 4.0 4.0 70.0 None None) milk
                   catalog_ok_seed eq_refl _ _ _)).
  - left. reflexivity.
  - discriminate.
  - discriminate.
Defined.

(** ** User accounts *)

Lemma NoDup_map_filter {A B : Type} (g : A -> B) (f : A -> bool) (l : list A) :
  NoDup (map g l) -> NoDup (map g (filter f l)).
Proof.
  induction l as [| x l IH]; simpl; [intros H; exact H |].
  intros Hnd. inversion Hnd as [| k ks Hnotin Hnd']; subst.
  destruct (f x); [| exact (IH Hnd')].
  simpl. constructor; [| exact (IH Hnd')].
  intros Hin. apply Hnotin.
  apply in_map_iff in Hin as (y & Hy & Hin).
  apply filter_In in Hin as [Hin _].
  rewrite <- Hy. apply in_map, Hin.
Qed.

Lemma get_user_unique (acc : accounts) (u : Users.row) :
  accounts_ok acc -> In u (users acc) ->
  get_user (Users.username u) acc = Some u.
Proof.
  intros (Hnames & _ & _) Hin.
  apply (find_unique Users.username String.eqb);
    [exact String.eqb_eq | exact Hnames | exact Hin].
Qed.

Lemma users_same_id (acc : accounts) (u v : Users.row) :
  accounts_ok acc -> In u (users acc) -> In v (users acc) ->
  Users.id u = Users.id v -> u = v.
Proof.
  intros (_ & Hids & _) Hu Hv Heq.
  pose proof (find_unique Users.id Z.eqb (users acc) u Z.eqb_eq Hids Hu) as H1.
  pose proof (find_unique Users.id Z.eqb (users acc) v Z.eqb_eq Hids Hv) as H2.
  rewrite Heq in H1. rewrite H1 in H2. injection H2 as ->. reflexivity.
Qed.

Lemma get_user_approve_user (username : string) (k : Z) (acc : accounts) :
  get_user username (approve_user k acc)
  = option_map
      (fun u => if (Users.id u =? k)%Z then Users.set_approved 1 u else u)
      (get_user username acc).
Proof.
  unfold get_user, approve_user. simpl.
  induction (users acc) as [| u l IH]; simpl; [reflexivity |].
  assert (Hname :
            Users.username
              (if (Users.id u =? k)%Z then Users.set_approved 1 u else u)
            = Users.username u)
    by (destruct (Users.id u =? k)%Z; reflexivity).
  rewrite Hname.
  destruct (String.eqb (Users.username u) username); [reflexivity | exact IH].
Qed.

Lemma accounts_ok_reject_user (k : Z) (acc : accounts) :
  accounts_ok acc -> accounts_ok (reject_user k acc).
Proof.
  intros (Hnames & Hids & Hseq). unfold accounts_ok, reject_user. simpl.
  split; [| split].
  - apply NoDup_map_filter, Hnames.
  - apply NoDup_map_filter, Hids.
  - rewrite Forall_forall in *. intros u Hu.
    apply filter_In in Hu as [Hu _]. apply Hseq, Hu.
Qed.

Section AccountProperties.

Variable pbkdf2_sha256_hash : string -> string -> string.
Variable pbkdf2_sha256_verify : string -> string -> bool.

(** From registration to the first login.  A registration under a new
    username succeeds and leaves the user pending; with the right password
    the login is refused as pending and records nothing; once the user is
    approved the same login succeeds. *)
Theorem registration_lifecycle
    (salt : string) (now now' : Z)
    (username password role full_name email : string) (acc : accounts) :
  get_user username acc = None ->
  pbkdf2_sha256_verify password (pbkdf2_sha256_hash salt password) = true ->
  fst (register_user pbkdf2_sha256_hash salt now username password role full_name email acc)
  = true
  /\ In ((seq_users acc + 1)%Z, username, role, full_name, email, now)
        (get_pending_users
           (snd (register_user pbkdf2_sha256_hash salt now username password role full_name
                   email acc)))
  /\ login pbkdf2_sha256_verify now' username password
       (snd (register_user pbkdf2_sha256_hash salt now username password role full_name
               email acc))
     = (PendingApproval,
        snd (register_user pbkdf2_sha256_hash salt now username password role full_name
               email acc))
  /\ fst (login pbkdf2_sha256_verify now' username password
            (approve_user (seq_users acc + 1)
               (snd (register_user pbkdf2_sha256_hash salt now username password role full_name
                       email acc))))
     = LoggedIn (seq_users acc + 1) username role full_name.
Proof.
  intros Hnone Hverify.
  unfold register_user, insert_user. rewrite Hnone. simpl fst. simpl snd.
  set (new := Users.mk (seq_users acc + 1) username
                (pbkdf2_sha256_hash salt password) role full_name email 0 now).
  set (acc1 := mkAccounts (users acc ++ [new]) (audit_log acc)
                 (seq_users acc + 1) (seq_audit_log acc)).
  assert (Hget : get_user username acc1 = Some new).
  { unfold get_user in *. simpl. rewrite find_app_first, Hnone. simpl.
    rewrite String.eqb_refl. reflexivity. }
  split; [reflexivity | split; [| split]].
  - unfold get_pending_users. apply in_map_iff. exists new.
    split; [reflexivity |]. apply filter_In. split; [| reflexivity].
    simpl. apply in_or_app. right. left. reflexivity.
  - unfold login, verify_password. rewrite Hget. simpl. rewrite Hverify.
    reflexivity.
  - unfold login, verify_password.
    rewrite get_user_approve_user, Hget. simpl.
    rewrite Z.eqb_refl. simpl. rewrite Hverify. reflexivity.
Qed.

(** A login succeeds only for a user of the table whose password verifies and
    who is approved; it then records one action of that user.  A login that
    fails, for whatever reason, changes nothing. *)
Theorem login_sound (now : Z) (username password : string) (acc : accounts) :
  match fst (login pbkdf2_sha256_verify now username password acc) with
  | LoggedIn uid un r fn =>
      exists user,
        In user (users acc)
        /\ Users.username user = username
        /\ pbkdf2_sha256_verify password (Users.password_hash user) = true
        /\ Users.approved user <> 0%Z
        /\ uid = Users.id user /\ un = username /\ r = Users.role user
        /\ fn = Users.full_name user
        /\ users (snd (login pbkdf2_sha256_verify now username password acc)) = users acc
        /\ audit_log (snd (login pbkdf2_sha256_verify now username password acc))
           = audit_log acc
             ++ [AuditLog.mk (seq_audit_log acc + 1) uid "User logged in" now]
  | PendingApproval | InvalidCredentials =>
      snd (login pbkdf2_sha256_verify now username password acc) = acc
  end.
Proof.
  unfold login, verify_password.
  destruct (get_user username acc) as [user |] eqn:Hget; [| reflexivity].
  destruct (pbkdf2_sha256_verify password (Users.password_hash user))
    eqn:Hverify; [| reflexivity].
  destruct (bool_of_int (Users.approved user)) eqn:Happroved; [| reflexivity].
  simpl. exists user.
  unfold get_user in Hget. apply find_some in Hget as [Hin Hname].
  apply String.eqb_eq in Hname.
  repeat split; try assumption; try reflexivity.
  intros Hzero. unfold bool_of_int in Happroved. rewrite Hzero in Happroved.
  discriminate Happroved.
Qed.

(** The registration form creates an account only when the two passwords are
    equal, the four fields are filled in and the username is new; the account
    is then pending and has the role chosen in the form, which is never the
    administrator's.  In every other case nothing changes. *)
Theorem register_form_safe
    (salt : string) (now : Z)
    (username password confirm_password full_name email : string)
    (role : role_choice) (acc : accounts) :
  (fst (register_form pbkdf2_sha256_hash salt now username password
          confirm_password full_name email role acc)
   = RegistrationSuccessful ->
   password = confirm_password
   /\ username <> ""%string /\ password <> ""%string
   /\ full_name <> ""%string /\ email <> ""%string
   /\ get_user username acc = None
   /\ users (snd (register_form pbkdf2_sha256_hash salt now username password
                    confirm_password full_name email role acc))
      = users acc
        ++ [Users.mk (seq_users acc + 1) username
              (pbkdf2_sha256_hash salt password) (role_name role) full_name
              email 0 now])
  /\ (fst (register_form pbkdf2_sha256_hash salt now username password
             confirm_password full_name email role acc)
      <> RegistrationSuccessful ->
      snd (register_form pbkdf2_sha256_hash salt now username password
             confirm_password full_name email role acc)
      = acc)
  /\ role_name role <> "admin"%string.
Proof.
  unfold register_form, register_user, insert_user, bool_of_str.
  split; [| split; [| destruct role; discriminate]].
  - destruct (String.eqb_spec password confirm_password) as [Hpw | Hpw];
      simpl; [| intros H; discriminate H].
    destruct (String.eqb_spec username "") as [Hu | Hu]; simpl;
      [intros H; discriminate H |].
    destruct (String.eqb_spec password "") as [Hp | Hp]; simpl;
      [intros H; discriminate H |].
    destruct (String.eqb_spec full_name "") as [Hf | Hf]; simpl;
      [intros H; discriminate H |].
    destruct (String.eqb_spec email "") as [He | He]; simpl;
      [intros H; discriminate H |].
    destruct (get_user username acc) as [u |]; simpl;
      [intros H; discriminate H |].
    intros _. repeat split; assumption.
  - destruct (String.eqb password confirm_password); simpl;
      [| reflexivity].
    destruct (negb (String.eqb username "") && negb (String.eqb password "")
              && negb (String.eqb full_name "") && negb (String.eqb email ""));
      simpl; [| reflexivity].
    destruct (get_user username acc); simpl; [reflexivity |].
    intros H. exfalso. apply H. reflexivity.
Qed.

(** [reject_user] deletes the account: the username no longer resolves and no
    password logs it in; every other user resolves as before. *)
Theorem reject_user_removes (acc : accounts) (user : Users.row) :
  accounts_ok acc ->
  In user (users acc) ->
  get_user (Users.username user) (reject_user (Users.id user) acc) = None
  /\ (forall now password,
        login pbkdf2_sha256_verify now (Users.username user) password
          (reject_user (Users.id user) acc)
        = (InvalidCredentials, reject_user (Users.id user) acc))
  /\ (forall other,
        In other (users acc) -> other <> user ->
        get_user (Users.username other) (reject_user (Users.id user) acc)
        = Some other).
Proof.
  intros Hok Hin.
  assert (Hgone :
            get_user (Users.username user) (reject_user (Users.id user) acc)
            = None).
  { destruct (get_user (Users.username user)
                (reject_user (Users.id user) acc)) as [x |] eqn:Hx;
      [| reflexivity].
    exfalso. unfold get_user, reject_user in Hx. simpl in Hx.
    apply find_some in Hx as [Hx Hname].
    apply filter_In in Hx as [Hx Hid].
    apply String.eqb_eq in Hname.
    pose proof (get_user_unique acc x Hok Hx) as H1.
    rewrite Hname, (get_user_unique acc user Hok Hin) in H1.
    injection H1 as ->. rewrite Z.eqb_refl in Hid. discriminate Hid. }
  split; [exact Hgone | split].
  - intros now password. unfold login, verify_password.
    rewrite Hgone. reflexivity.
  - intros other Hother Hne.
    apply (get_user_unique _ other (accounts_ok_reject_user _ _ Hok)).
    unfold reject_user. simpl. apply filter_In. split; [exact Hother |].
    destruct (Z.eqb_spec (Users.id other) (Users.id user)) as [Heq | _];
      [| reflexivity].
    exfalso. apply Hne. exact (users_same_id acc other user Hok Hother Hin Heq).
Qed.

End AccountProperties.

Lemma accounts_ok_example : accounts_ok example_accounts.
Proof.
  unfold accounts_ok. simpl. split; [| split].
  - repeat constructor; simpl; intuition discriminate.
  - repeat constructor; simpl; intuition discriminate.
  - repeat constructor; discriminate.
Qed.

Lemma registration_lifecycle_witness :
  fst (login example_verify 9 "meera" "ghee"
         (approve_user 3
            (snd (register_user example_hash "s3" 7 "meera" "ghee" "viewer"
                    "Meera" "m@x" example_accounts))))
  = LoggedIn 3 "meera" "viewer" "Meera".
Proof.
  exact (proj2 (proj2 (proj2
           (registration_lifecycle example_hash example_verify
              "s3" 7 9 "meera" "ghee" "viewer" "Meera" "m@x" example_accounts
              eq_refl eq_refl)))).
Defined.

Lemma reject_user_removes_witness :
  get_user "ravi" (reject_user 2 example_accounts) = None.
Proof.
  refine (proj1 (reject_user_removes example_verify example_accounts
                   (Users.mk 2 "ravi" (example_hash "s2" "curd") "viewer"
                      "Ravi" "r@x" 0 5)
                   accounts_ok_example _)).
  right. left. reflexivity.
Defined.

(** The pending list after an approval is the pending list before it without
    the approved user; approving twice is approving once; the audit trail is
    not written by [approve_user] itself. *)
Theorem approve_user_pending (k : Z) (acc : accounts) :
  get_pending_users (approve_user k acc)
  = filter (fun row => let '(i, _, _, _, _, _) := row in negb (i =? k)%Z)
           (get_pending_users acc)
  /\ approve_user k (approve_user k acc) = approve_user k acc
  /\ audit_log (approve_user k acc) = audit_log acc.
Proof.
  split; [| split; [| reflexivity]].
  - unfold get_pending_users, approve_user. simpl.
    induction (users acc) as [| u l IH]; simpl; [reflexivity |].
    destruct (Users.id u =? k)%Z eqn:Hid; simpl.
    + destruct (Users.approved u =? 0)%Z; simpl; rewrite ?Hid; simpl;
        exact IH.
    + destruct (Users.approved u =? 0)%Z; simpl; rewrite ?Hid; simpl;
        [f_equal |]; exact IH.
  - unfold approve_user. simpl. f_equal. rewrite map_map.
    apply map_ext. intros [i un ph r fn e a c]. simpl.
    destruct (i =? k)%Z eqn:Hid; simpl; rewrite Hid; reflexivity.
Qed.

Section AccountRuns.

Variable pbkdf2_sha256_hash : string -> string -> string.
Variable pbkdf2_sha256_verify : string -> string -> bool.

Lemma users_step_same (acc acc' : accounts) :
  accounts_ok acc -> users acc' = users acc -> seq_users acc' = seq_users acc ->
  users_step acc acc'.
Proof.
  intros Hok Hu Hs. unfold users_step, accounts_ok. rewrite Hu, Hs.
  split; [exact Hok | split; [lia |]].
  apply Forall_forall. intros u Hin. left. apply in_map, Hin.
Qed.

Lemma users_step_operation (acc : accounts) (op : account_operation) :
  accounts_ok acc ->
  users_step acc
    (run_account_operation pbkdf2_sha256_hash pbkdf2_sha256_verify acc op).
Proof.
  intros Hok.
  destruct op as [salt now un pw r fn e | k | k | now uid a | now un pw];
    simpl.
  - unfold register_user, insert_user.
    destruct (get_user un acc) as [u |] eqn:Hget; simpl;
      [apply users_step_same; [exact Hok | reflexivity | reflexivity] |].
    destruct Hok as (Hnames & Hids & Hseq).
    unfold users_step, accounts_ok. simpl. rewrite !map_app. simpl.
    split; [split; [| split] | split; [lia |]].
    + apply NoDup_app; [exact Hnames | repeat constructor; simpl; tauto |].
      intros x Hx [<- | []]. apply in_map_iff in Hx as (u & Hu & Hin).
      unfold get_user in Hget.
      pose proof (find_none _ _ Hget u Hin) as Hf. simpl in Hf.
      rewrite Hu, String.eqb_refl in Hf. discriminate Hf.
    + apply NoDup_app; [exact Hids | repeat constructor; simpl; tauto |].
      intros x Hx [<- | []]. apply in_map_iff in Hx as (u & Hu & Hin).
      rewrite Forall_forall in Hseq. specialize (Hseq u Hin). lia.
    + apply Forall_app. split.
      * eapply Forall_impl; [| exact Hseq]. simpl. intros u Hu. lia.
      * constructor; [simpl; lia | constructor].
    + apply Forall_app. split.
      * apply Forall_forall. intros u Hin. left. apply in_map, Hin.
      * constructor; [right; simpl; lia | constructor].
  - assert (Hnames : map Users.username (users (approve_user k acc))
                     = map Users.username (users acc)).
    { unfold approve_user. simpl. rewrite map_map. apply map_ext.
      intros u. destruct (Users.id u =? k)%Z; reflexivity. }
    assert (Hids : map Users.id (users (approve_user k acc))
                   = map Users.id (users acc)).
    { unfold approve_user. simpl. rewrite map_map. apply map_ext.
      intros u. destruct (Users.id u =? k)%Z; reflexivity. }
    destruct Hok as (Hn & Hi & Hseq).
    unfold users_step, accounts_ok. rewrite Hnames, Hids.
    split; [split; [exact Hn | split; [exact Hi |]] | split; [simpl; lia |]].
    + unfold approve_user. simpl. apply Forall_forall. intros u Hu.
      apply in_map_iff in Hu as (v & <- & Hv).
      rewrite Forall_forall in Hseq. specialize (Hseq v Hv).
      destruct (Users.id v =? k)%Z; simpl; exact Hseq.
    + apply Forall_forall. intros u Hu. left. rewrite <- Hids.
      apply in_map, Hu.
  - unfold users_step.
    split; [apply accounts_ok_reject_user, Hok | split; [simpl; lia |]].
    apply Forall_forall. intros u Hu. left.
    unfold reject_user in Hu. simpl in Hu.
    apply filter_In in Hu as [Hu _]. apply in_map, Hu.
  - apply users_step_same; [exact Hok | reflexivity | reflexivity].
  - unfold login.
    destruct (verify_password pbkdf2_sha256_verify un pw acc) as [u |];
      [destruct (bool_of_int (Users.approved u)) |];
      apply users_step_same; try exact Hok; reflexivity.
Qed.

Lemma users_step_trans (a b c : accounts) :
  users_step a b -> users_step b c -> users_step a c.
Proof.
  intros (Hokb & Hsb & Hub) (Hokc & Hsc & Huc).
  split; [exact Hokc | split; [lia |]].
  rewrite Forall_forall in *. intros u Hu.
  destruct (Huc u Hu) as [Hin | Hnew]; [| right; lia].
  apply in_map_iff in Hin as (v & Hv & Hvin).
  rewrite <- Hv. exact (Hub v Hvin).
Qed.

(** Across any sequence of registrations, approvals, rejections, logins and
    logged actions, usernames and user ids stay pairwise distinct, and a user
    registered during the sequence gets an id above every id handed out
    before it, even one whose account was rejected since: the actions logged
    under an id are never inherited by a later account. *)
Theorem run_accounts_ids_never_reused
    (ops : list account_operation) (acc : accounts) :
  accounts_ok acc ->
  accounts_ok (run_accounts pbkdf2_sha256_hash pbkdf2_sha256_verify ops acc)
  /\ (seq_users acc
      <= seq_users (run_accounts pbkdf2_sha256_hash pbkdf2_sha256_verify
                      ops acc))%Z
  /\ Forall (fun u => In (Users.id u) (map Users.id (users acc))
                      \/ (seq_users acc < Users.id u)%Z)
            (users (run_accounts pbkdf2_sha256_hash pbkdf2_sha256_verify
                      ops acc)).
Proof.
  unfold run_accounts. revert acc.
  induction ops as [| op ops IH]; intros acc Hok; simpl.
  - apply users_step_same; [exact Hok | reflexivity | reflexivity].
  - pose proof (users_step_operation acc op Hok) as Hstep.
    exact (users_step_trans _ _ _ Hstep (IH _ (proj1 Hstep))).
Qed.

End AccountRuns.

Lemma run_accounts_ids_never_reused_witness :
  accounts_ok
    (run_accounts example_hash example_verify
       [RejectUser 2;
        RegisterUser "s3" 7 "ravi" "paneer" "viewer" "Ravi Two" "r2@x";
        ApproveUser 3; Login 9 "ravi" "paneer"]
       example_accounts).
Proof.
  exact (proj1 (run_accounts_ids_never_reused example_hash example_verify
                  [RejectUser 2;
                   RegisterUser "s3" 7 "ravi" "paneer" "viewer" "Ravi Two"
                     "r2@x";
                   ApproveUser 3; Login 9 "ravi" "paneer"]
                  example_accounts accounts_ok_example)).
Defined.
